(** * mac2switchport.py: a shallow embedding in Rocq

    Strings are Rocq [string]s of ASCII characters.  The Python string
    methods the program uses ([re.sub], [str.lower], [str.split],
    [str.isalnum], slicing, [str.join]) are written out character by
    character with their CPython behaviour on ASCII text; statements
    about [format_mac] on this model are made for ASCII input.  A second
    model of [format_mac], on Unicode code points, covers the characters
    beyond ASCII where [str.lower] and [str.isalnum] differ. *)

From Stdlib Require Import Ascii String List Bool Arith NArith Lia.
Import ListNotations.
Set Warnings "-register-all".

Open Scope bool_scope.
Open Scope string_scope.

(** ** Python string primitives on ASCII text *)

Definition ascii_in (lo hi : nat) (c : ascii) : bool :=
  Nat.leb lo (nat_of_ascii c) && Nat.leb (nat_of_ascii c) hi.

(** [c.lower()] for an ASCII character. *)
Definition py_lower_char (c : ascii) : ascii :=
  if ascii_in 65 90 c then ascii_of_nat (nat_of_ascii c + 32) else c.

(** [c.isspace()] for an ASCII character: \t \n \v \f \r, the
    separators \x1c to \x1f, and the space. *)
Definition py_isspace (c : ascii) : bool :=
  ascii_in 9 13 c || ascii_in 28 32 c.

(** [c.isalnum()] for an ASCII character. *)
Definition py_isalnum_char (c : ascii) : bool :=
  ascii_in 48 57 c || ascii_in 65 90 c || ascii_in 97 122 c.

Fixpoint forall_chars (f : ascii -> bool) (s : string) : bool :=
  match s with
  | EmptyString => true
  | String c s' => f c && forall_chars f s'
  end.

Fixpoint string_map (f : ascii -> ascii) (s : string) : string :=
  match s with
  | EmptyString => EmptyString
  | String c s' => String (f c) (string_map f s')
  end.

Fixpoint string_filter (f : ascii -> bool) (s : string) : string :=
  match s with
  | EmptyString => EmptyString
  | String c s' => if f c then String c (string_filter f s') else string_filter f s'
  end.

(** [s.lower()] *)
Definition py_lower (s : string) : string := string_map py_lower_char s.

(** [s.isalnum()]: false on the empty string. *)
Definition py_isalnum (s : string) : bool :=
  negb (String.eqb s EmptyString) && forall_chars py_isalnum_char s.

(** The character class [[.:-]] of the regular expression. *)
Definition is_delim (c : ascii) : bool :=
  Ascii.eqb c "."%char || Ascii.eqb c ":"%char || Ascii.eqb c "-"%char.

(** [re.sub('[.:-]', '', s)] *)
Definition re_sub_delims (s : string) : string :=
  string_filter (fun c => negb (is_delim c)) s.

(** [s.split()]: the maximal runs of non-whitespace characters.
    [cur] is the word being read. *)
Fixpoint py_split_ws_aux (s : string) (cur : string) : list string :=
  match s with
  | EmptyString =>
      match cur with EmptyString => [] | _ => [cur] end
  | String c s' =>
      if py_isspace c then
        match cur with
        | EmptyString => py_split_ws_aux s' EmptyString
        | _ => cur :: py_split_ws_aux s' EmptyString
        end
      else py_split_ws_aux s' (cur ++ String c EmptyString)
  end.

Definition py_split_ws (s : string) : list string := py_split_ws_aux s EmptyString.

(** [s.split(sep)] for a one-character separator: always
    (number of separators + 1) pieces. *)
Fixpoint py_split_aux (sep : ascii) (s : string) (cur : string) : list string :=
  match s with
  | EmptyString => [cur]
  | String c s' =>
      if Ascii.eqb c sep then cur :: py_split_aux sep s' EmptyString
      else py_split_aux sep s' (cur ++ String c EmptyString)
  end.

Definition py_split (sep : ascii) (s : string) : list string :=
  py_split_aux sep s EmptyString.

(** [s[i:i+2]] for [i] within bounds or past the end. *)
Definition py_slice2 (s : string) (i : nat) : string := substring i 2 s.

(** ** MAC normaliser: [format_mac]

    The two [assert]s raise [AssertionError]; here a failed assertion
    is [None]. *)
Definition format_mac (mac : string) : option string :=
  let mac := py_lower (re_sub_delims mac) in
  let mac := String.concat "" (py_split_ws mac) in
  if negb (Nat.eqb (String.length mac) 12) then None
  else if negb (py_isalnum mac) then None
  else Some (String.concat ":" (map (py_slice2 mac) [0; 2; 4; 6; 8; 10])).

(** ** Reading of the spec for the normaliser *)

(** A character the spec strips: '.', ':', '-' or whitespace. *)
Definition is_sep (c : ascii) : bool := is_delim c || py_isspace c.

(** The input with every '.', ':', '-' and whitespace character removed. *)
Definition stripped (s : string) : string := string_filter (fun c => negb (is_sep c)) s.

Definition is_hex (c : ascii) : bool :=
  ascii_in 48 57 c || ascii_in 97 102 c || ascii_in 65 70 c.

(** A lowercase letter or a digit. *)
Definition low_alnum (c : ascii) : bool := ascii_in 48 57 c || ascii_in 97 122 c.

(** Consecutive two-character pieces of a string. *)
Fixpoint byte_pairs (d : string) : list string :=
  match d with
  | String a (String b rest) => String a (String b EmptyString) :: byte_pairs rest
  | _ => []
  end.

(** The canonical form: the byte pairs joined by colons. *)
Definition canonical (d : string) : string := String.concat ":" (byte_pairs d).

(** [spelled s d]: [s] writes the hex digits [d] (lowercase) with any
    mixture of '.', ':', '-' and whitespace around and between them and
    each digit in either case. *)
Fixpoint spelled (s d : string) : bool :=
  match s with
  | EmptyString => String.eqb d EmptyString
  | String c s' =>
      if is_sep c then spelled s' d
      else match d with
           | EmptyString => false
           | String x d' => is_hex c && Ascii.eqb (py_lower_char c) x && spelled s' d'
           end
  end.

(** An ASCII string: every character below 128. *)
Definition ascii_char (c : ascii) : bool := Nat.ltb (nat_of_ascii c) 128.

Definition is_ascii (s : string) : bool := forall_chars ascii_char s.

(** ** Python strings as code points

    A Python [str] is a sequence of Unicode code points, and [str.lower],
    [str.isalnum] and [str.split()] follow the Unicode character database.
    Here a string is the list of its code points.  [str.isspace] is given
    for every code point; [str.lower] and [str.isalnum] with CPython's
    data for the code points [u_modelled]: U+0000 to U+00FF (ASCII and
    Latin-1), U+0130 and U+0307.  On ASCII input this model and the one
    above agree ([format_mac_u_ascii]). *)

Definition ustring := list N.

Definition u_modelled (c : N) : bool := (c <? 256)%N || (c =? 304)%N || (c =? 775)%N.

Definition u_in (lo hi c : N) : bool := (lo <=? c)%N && (c <=? hi)%N.

(** The code points of a string of the model above. *)
Fixpoint u_of_string (s : string) : ustring :=
  match s with
  | EmptyString => []
  | String c s' => N_of_ascii c :: u_of_string s'
  end.

(** [c.lower()] for a modelled code point: A-Z and the Latin-1 capitals
    U+00C0 to U+00DE (but U+00D7, the multiplication sign) move by 32;
    U+0130, the capital I with dot above, becomes two code points: 'i'
    and U+0307, the combining dot above.  Every other modelled code point
    is its own lowercase. *)
Definition u_lower_cp (c : N) : list N :=
  if u_in 65 90 c || (u_in 192 222 c && negb (c =? 215)%N) then [(c + 32)%N]
  else if (c =? 304)%N then [105%N; 775%N]
  else [c].

(** [s.lower()], code point by code point: CPython lowers every code
    point on its own except the capital sigma U+03A3, which no modelled
    string holds. *)
Definition u_lower (s : ustring) : ustring := flat_map u_lower_cp s.

(** [c.isspace()], and the separators of [str.split()]: the ASCII
    whitespace of [py_isspace], U+0085, U+00A0, U+1680, U+2000 to U+200A,
    U+2028, U+2029, U+202F, U+205F and U+3000. *)
Definition u_isspace (c : N) : bool :=
  u_in 9 13 c || u_in 28 32 c || (c =? 133)%N || (c =? 160)%N || (c =? 5760)%N
  || u_in 8192 8202 c || (c =? 8232)%N || (c =? 8233)%N || (c =? 8239)%N
  || (c =? 8287)%N || (c =? 12288)%N.

(** [c.isalnum()] for a modelled code point: the ASCII digits and
    letters; in Latin-1 the ordinal indicators U+00AA and U+00BA, the
    micro sign U+00B5, the superscript digits U+00B2, U+00B3, U+00B9, the
    fractions U+00BC to U+00BE and the letters U+00C0 to U+00FF (but the
    signs U+00D7 and U+00F7); the capital letter U+0130.  The combining
    mark U+0307 is not alphanumeric. *)
Definition u_isalnum_cp (c : N) : bool :=
  u_in 48 57 c || u_in 65 90 c || u_in 97 122 c
  || (c =? 170)%N || (c =? 178)%N || (c =? 179)%N || (c =? 181)%N || (c =? 185)%N
  || (c =? 186)%N || u_in 188 190 c
  || (u_in 192 255 c && negb (c =? 215)%N && negb (c =? 247)%N)
  || (c =? 304)%N.

(** The character class [[.:-]]. *)
Definition u_is_delim (c : N) : bool := (c =? 46)%N || (c =? 58)%N || (c =? 45)%N.

(** [re.sub('[.:-]', '', s)] *)
Definition u_re_sub_delims (s : ustring) : ustring := filter (fun c => negb (u_is_delim c)) s.

(** [s.split()] *)
Fixpoint u_split_ws_aux (s cur : ustring) : list ustring :=
  match s with
  | [] => match cur with [] => [] | _ => [cur] end
  | c :: s' =>
      if u_isspace c then
        match cur with
        | [] => u_split_ws_aux s' []
        | _ => cur :: u_split_ws_aux s' []
        end
      else u_split_ws_aux s' (cur ++ [c])%list
  end.

Definition u_split_ws (s : ustring) : list ustring := u_split_ws_aux s [].

(** [s.isalnum()] *)
Definition u_isalnum (s : ustring) : bool :=
  negb (Nat.eqb (length s) 0) && forallb u_isalnum_cp s.

(** [s[i:i+2]] *)
Definition u_slice2 (s : ustring) (i : nat) : ustring := firstn 2 (skipn i s).

(** [sep.join(xs)] *)
Fixpoint u_join (sep : ustring) (xs : list ustring) : ustring :=
  match xs with
  | [] => []
  | [x] => x
  | x :: xs' => (x ++ sep ++ u_join sep xs')%list
  end.

(** [format_mac] on code points; [len] counts code points. *)
Definition format_mac_u (mac : ustring) : option ustring :=
  let mac := u_lower (u_re_sub_delims mac) in
  let mac := List.concat (u_split_ws mac) in
  if negb (Nat.eqb (length mac) 12) then None
  else if negb (u_isalnum mac) then None
  else Some (u_join [58%N] (map (u_slice2 mac) [0; 2; 4; 6; 8; 10])).

(** The spec's stripping on code points: '.', ':', '-' and whitespace
    removed. *)
Definition u_stripped (s : ustring) : ustring :=
  filter (fun c => negb (u_is_delim c || u_isspace c)) s.

(** The input 'Iabbccddeeff' whose first character is U+0130, the
    capital I with dot above. *)
Definition dotted_I_mac : ustring := 304%N :: u_of_string "abbccddeeff".

(** ** Configuration, records and Python values *)

(** The module-level globals read from the environment.  [AKIPS_CERT]
    is [None] for [False] (verification off) and [Some path] otherwise. *)
Record config := {
  AKIPS_URL : string;
  AKIPS_API_RO_PASSWORD : string;
  AKIPS_CERT : option string
}.

(** A [requests.get(url, verify=...)] call. *)
Record request := { req_url : string; req_verify : option string }.

(** The dictionary built for one CSV line of the API response. *)
Record PortRecord := {
  mac : string; vendor : string; switch : string;
  port : string; vlan : string; ipaddress : string
}.

(** The values [mac2switchport] returns and [main] prints. *)
Inductive pyval :=
| PyStr (s : string)
| PyDict (r : PortRecord)
| PyList (l : list pyval).

(** The values [json.loads] produces.  Numbers keep their literal. *)
Inductive json :=
| JNull
| JBool (b : bool)
| JNum (literal : string)
| JStr (s : string)
| JArr (l : list json)
| JObj (kvs : list (string * json)).

(** The exceptions the program can raise or catch. *)
Inductive exn :=
| AssertionError
| NetworkError
| BrokenPipeError
| JSONDecodeError
| KeyError
| TypeError.

(** ** A state and exception monad for the process *)

(** What the outside world sees: the requests sent, the values printed,
    and how many more prints the standard output accepts before the
    consumer has closed it ([None]: it never closes). *)
Record world := {
  requests : list request;
  printed : list pyval;
  pipe_room : option nat
}.

Definition M (A : Type) : Type := world -> world * (exn + A).

Definition ret {A} (a : A) : M A := fun w => (w, inr a).
Definition raise {A} (e : exn) : M A := fun w => (w, inl e).
Definition bind {A B} (m : M A) (f : A -> M B) : M B :=
  fun w => match m w with
           | (w', inl e) => (w', inl e)
           | (w', inr a) => f a w'
           end.

Notation "x <- m ;; k" := (bind m (fun x => k)) (at level 61, m at next level, right associativity).

(** [try: m except e: h e], the handler running in the state reached. *)
Definition try_except {A} (m : M A) (h : exn -> M A) : M A :=
  fun w => match m w with
           | (w', inl e) => h e w'
           | (w', inr a) => (w', inr a)
           end.

Definition of_option {A} (e : exn) (o : option A) : M A :=
  match o with Some a => ret a | None => raise e end.

Definition of_sum {A} (r : exn + A) : M A := fun w => (w, r).

(** [print(json.dumps(v, indent=2))] followed by [sys.stdout.flush()]:
    [printed] records the value [v]; the text written is [print_text v]. *)
Definition print_flush (v : pyval) : M unit :=
  fun w => match pipe_room w with
           | Some 0 => (w, inl BrokenPipeError)
           | Some (S n) =>
               ({| requests := requests w; printed := printed w ++ [v];
                   pipe_room := Some n |}, inr tt)
           | None =>
               ({| requests := requests w; printed := printed w ++ [v];
                   pipe_room := None |}, inr tt)
           end.

(** [for x in xs: body(x)] *)
Fixpoint for_each {A} (xs : list A) (body : A -> M unit) : M unit :=
  match xs with
  | [] => ret tt
  | x :: xs' => _ <- body x ;; for_each xs' body
  end.

(** [retval = []; for x in xs: retval.append(f(x))] *)
Fixpoint collect {A B} (xs : list A) (f : A -> M B) : M (list B) :=
  match xs with
  | [] => ret []
  | x :: xs' => y <- f x ;; ys <- collect xs' f ;; ret (y :: ys)
  end.

(** ** Parsing the response of the API *)

(** The loop [for j in r.text.split('\n'): ...] of the non-raw branch,
    [retval] accumulating the records; [format_mac(i[0])] may raise. *)
Fixpoint parse_lines (lines : list string) (retval : list PortRecord)
  : exn + list PortRecord :=
  match lines with
  | [] => inr retval
  | j :: lines' =>
      let i := py_split "," j in
      if Nat.eqb (length i) 6 then
        match format_mac (nth 0 i "") with
        | None => inl AssertionError
        | Some m =>
            parse_lines lines'
              (retval ++ [{| mac := m; vendor := nth 1 i ""; switch := nth 2 i "";
                             port := nth 3 i ""; vlan := nth 4 i "";
                             ipaddress := nth 5 i "" |}])
        end
      else parse_lines lines' retval
  end.

(** [retval[0] if len(retval) == 1 else retval] *)
Definition unwrap_single (retval : list PortRecord) : pyval :=
  match retval with
  | [r] => PyDict r
  | _ => PyList (map PyDict retval)
  end.

(** The URL [mac2switchport] passes to [requests.get]. *)
Definition spm_url (cfg : config) (m : string) : string :=
  AKIPS_URL cfg ++ "/api-spm?username=api-ro;password=" ++ AKIPS_API_RO_PASSWORD cfg
  ++ ";mac=" ++ m.

Section Program.

Variable cfg : config.

(** The remote API: the body of the response to a request, or [None]
    when [requests.get] raises (connection refused, timeout, TLS). *)
Variable server : request -> option string.

(** [json.loads] on one line: [None] when it raises [JSONDecodeError]. *)
Variable json_loads : string -> option json.

(** [requests.get(url, verify=AKIPS_CERT)] followed by [r.text]. *)
Definition http_get (r : request) : M string :=
  fun w =>
    let w' := {| requests := requests w ++ [r]; printed := printed w;
                 pipe_room := pipe_room w |} in
    match server r with
    | Some body => (w', inr body)
    | None => (w', inl NetworkError)
    end.

(** ** [mac2switchport] *)
Definition mac2switchport (mac_in : string) (raw : bool) : M pyval :=
  m <- of_option AssertionError (format_mac mac_in) ;;
  text <- http_get {| req_url := spm_url cfg m; req_verify := AKIPS_CERT cfg |} ;;
  if raw then ret (PyStr text)
  else retval <- of_sum (parse_lines (py_split "010"%char text) []) ;;
       ret (unwrap_single retval).

(** [mac2switchport] called on a value decoded from JSON: [re.sub]
    raises [TypeError] on anything but a string. *)
Definition mac2switchport_json (v : json) (raw : bool) : M pyval :=
  match v with
  | JStr s => mac2switchport s raw
  | _ => raise TypeError
  end.

(** ** The stream mode of [main] *)

(** A dict decoded by [json.loads] keeps the last value of a key. *)
Definition dict_get (kvs : list (string * json)) (k : string) : option json :=
  option_map snd (find (fun kv => String.eqb (fst kv) k) (rev kvs)).

(** The keys of such a dict, in order of first appearance. *)
Fixpoint dict_keys (kvs : list (string * json)) : list string :=
  match kvs with
  | [] => []
  | (k, _) :: kvs' => k :: filter (fun k' => negb (String.eqb k' k)) (dict_keys kvs')
  end.

(** [v['mac']] *)
Definition getitem_mac (v : json) : M json :=
  match v with
  | JObj kvs => of_option KeyError (dict_get kvs "mac")
  | _ => raise TypeError
  end.

(** The elements [for x in v] runs over. *)
Fixpoint string_chars (s : string) : list json :=
  match s with
  | EmptyString => []
  | String c s' => JStr (String c EmptyString) :: string_chars s'
  end.

Definition py_iter (v : json) : M (list json) :=
  match v with
  | JArr l => ret l
  | JStr s => ret (string_chars s)
  | JObj kvs => ret (map JStr (dict_keys kvs))
  | _ => raise TypeError
  end.

(** One line of the first loop, which reads each line as JSON. *)
Definition json_line (line : string) : M unit :=
  if String.eqb line EmptyString then ret tt
  else
    json_in <- of_option JSONDecodeError (json_loads line) ;;
    match json_in with
    | JObj _ =>
        macs <- getitem_mac json_in ;;
        xs <- py_iter macs ;;
        retval <- collect xs (fun m => mac2switchport_json m false) ;;
        print_flush (PyList retval)
    | JArr eles =>
        retval <- collect eles (fun ele => m <- getitem_mac ele ;; mac2switchport_json m false) ;;
        print_flush (PyList retval)
    | _ => ret tt
    end.

(** One line of the fallback loop, which reads each line as a MAC. *)
Definition bare_line (line : string) : M unit :=
  if String.eqb line EmptyString then ret tt
  else v <- mac2switchport line false ;; print_flush v.

(** [main()] with no command-line argument, [stdin] being
    [sys.stdin.read()]. *)
Definition main_stream (stdin : string) : M unit :=
  let lines := py_split "010"%char stdin in
  try_except (for_each lines json_line)
    (fun e => match e with
              | JSONDecodeError =>
                  try_except (for_each lines bare_line)
                    (fun e' => match e' with
                               | BrokenPipeError => ret tt
                               | _ => raise e'
                               end)
              | _ => raise e
              end).

End Program.

(** ** Reading of the spec for the resolver *)

(** The query URL as the spec words it: [{base_url}/api-spm], then the
    parameters joined by ';'. *)
Definition spm_url_spec (base_url secret m : string) : string :=
  base_url ++ "/api-spm" ++ "?"
  ++ String.concat ";" ["username=api-ro"; "password=" ++ secret; "mac=" ++ m].

(** The fields of a response line split on ','. *)
Definition csv_fields (line : string) : list string := py_split "," line.

Definition six_fields (line : string) : bool := Nat.eqb (length (csv_fields line)) 6.

(** Every 6-field line of the body has a first field that normalises. *)
Definition record_macs_ok (body : string) : bool :=
  forallb (fun line => negb (six_fields line)
                       || match format_mac (nth 0 (csv_fields line) "") with Some _ => true | None => false end)
          (py_split "010"%char body).

(** One record per 6-field line, in order, bound as (mac, vendor,
    switch, port, vlan, ipaddress) with the mac normalised. *)
Definition records_spec (body : string) : list PortRecord :=
  flat_map (fun line =>
              let f := csv_fields line in
              if six_fields line then
                match format_mac (nth 0 f "") with
                | Some m => [{| mac := m; vendor := nth 1 f ""; switch := nth 2 f "";
                                port := nth 3 f ""; vlan := nth 4 f "";
                                ipaddress := nth 5 f "" |}]
                | None => []
                end
              else [])
           (py_split "010"%char body).

(** One record alone, anything else as a sequence. *)
Definition result_spec (rs : list PortRecord) : pyval :=
  if Nat.eqb (length rs) 1 then
    match rs with r :: _ => PyDict r | [] => PyList [] end
  else PyList (map PyDict rs).

(** ** Concrete inputs *)

Definition demo_cfg : config :=
  {| AKIPS_URL := "https://akips.example.edu"; AKIPS_API_RO_PASSWORD := "secret";
     AKIPS_CERT := None |}.

(** A server answering every request with the same body. *)
Definition const_server (body : string) : request -> option string := fun _ => Some body.

Definition w0 : world := {| requests := []; printed := []; pipe_room := None |}.

Definition csv_one : string := "aa:bb:cc:dd:ee:ff,Acme,sw1,Gi0/1,vlan10,10.0.0.5
".

Definition csv_two : string := "aa:bb:cc:dd:ee:ff,Acme,sw1,Gi0/1,vlan10,10.0.0.5
aa:bb:cc:dd:ee:ff,Acme,sw2,Gi0/2,vlan20,
".

Definition cant_resolve : string := "Can't resolve mac address aa:bb:cc:dd:ee:ff
".

(** A valid line followed by a 6-field line whose first field is no MAC. *)
Definition csv_bad : string := "aa:bb:cc:dd:ee:ff,Acme,sw1,Gi0/1,vlan10,10.0.0.5
total,-,-,-,-,-
".

Definition rec_sw1 : PortRecord :=
  {| mac := "aa:bb:cc:dd:ee:ff"; vendor := "Acme"; switch := "sw1"; port := "Gi0/1";
     vlan := "vlan10"; ipaddress := "10.0.0.5" |}.

Definition rec_sw2 : PortRecord :=
  {| mac := "aa:bb:cc:dd:ee:ff"; vendor := "Acme"; switch := "sw2"; port := "Gi0/2";
     vlan := "vlan20"; ipaddress := "" |}.

(** The double quote character, as a one-character string. *)
Definition dq : string := String "034"%char EmptyString.

(** The stream-mode line {"mac": "aa:bb:cc:dd:ee:ff"}. *)
Definition obj_line : string :=
  "{" ++ dq ++ "mac" ++ dq ++ ": " ++ dq ++ "aa:bb:cc:dd:ee:ff" ++ dq ++ "}".

(** The stream-mode line {"mac": ["aa:bb:cc:dd:ee:ff", "1122.3344.5566"]}. *)
Definition batch_line : string :=
  "{" ++ dq ++ "mac" ++ dq ++ ": [" ++ dq ++ "aa:bb:cc:dd:ee:ff" ++ dq ++ ", "
  ++ dq ++ "1122.3344.5566" ++ dq ++ "]}".

(** What [json.loads] returns on the lines above; every other line
    used below is not JSON. *)
Definition json_loads_demo (l : string) : option json :=
  if String.eqb l obj_line then Some (JObj [("mac", JStr "aa:bb:cc:dd:ee:ff")])
  else if String.eqb l batch_line then
    Some (JObj [("mac", JArr [JStr "aa:bb:cc:dd:ee:ff"; JStr "1122.3344.5566"])])
  else None.

(** A world whose standard output accepts [n] more prints. *)
Definition w_room (n : nat) : world := {| requests := []; printed := []; pipe_room := Some n |}.

Definition after_request (w : world) (r : request) : world :=
  {| requests := requests w ++ [r]; printed := printed w; pipe_room := pipe_room w |}.

(** ** Configuration loading (module level)

    [if not os.environ.get(NAME)]: an unset and an empty variable are
    both false.  [env] is [os.environ.get]; [None] is the [Exception]
    raised at import. *)
Definition load_config (env : string -> option string) : option config :=
  match env "AKIPS_URL" with
  | None | Some EmptyString => None
  | Some url =>
      match env "AKIPS_API_RO_PASSWORD" with
      | None | Some EmptyString => None
      | Some pw =>
          Some {| AKIPS_URL := url; AKIPS_API_RO_PASSWORD := pw;
                  AKIPS_CERT := match env "AKIPS_CERT" with
                                | None | Some EmptyString => None
                                | Some path => Some path
                                end |}
      end
  end.

(** ** The flag mode of [main] *)

(** The namespace [parser.parse_args()] returns. *)
Record cli_args := { arg_mac : string; arg_raw : bool; arg_debug : bool }.

(** [main()] with arguments, after [parse_args]; the logger level set
    by [--debug] changes no output. *)
Definition main_flag (cfg : config) (server : request -> option string) (args : cli_args)
  : M unit :=
  v <- mac2switchport cfg server (arg_mac args) (arg_raw args) ;;
  print_flush v.

(** ** [print(json.dumps(v, indent=2))] *)

Definition hex_digit (n : nat) : ascii :=
  if Nat.ltb n 10 then ascii_of_nat (48 + n) else ascii_of_nat (87 + n).

(** A character of a string as [json.dumps] writes it, with the default
    [ensure_ascii=True]: the double quote and the backslash after a
    backslash, the short escapes
    \b \f \n \r \t, every other character outside ' ' to '~' as \u00xx
    (lowercase hex), and the rest as it is. *)
Definition json_escape_char (c : ascii) : string :=
  let n := nat_of_ascii c in
  if Nat.eqb n 34 then String "\"%char dq
  else if Nat.eqb n 92 then "\\"
  else if Nat.eqb n 8 then "\b"
  else if Nat.eqb n 12 then "\f"
  else if Nat.eqb n 10 then "\n"
  else if Nat.eqb n 13 then "\r"
  else if Nat.eqb n 9 then "\t"
  else if Nat.leb 32 n && Nat.leb n 126 then String c EmptyString
  else String "\"%char (String "u"%char (String "0"%char (String "0"%char
         (String (hex_digit (n / 16)) (String (hex_digit (n mod 16)) EmptyString))))).

Fixpoint json_escape (s : string) : string :=
  match s with
  | EmptyString => EmptyString
  | String c s' => json_escape_char c ++ json_escape s'
  end.

(** [json.dumps(s)] for a string [s]. *)
Definition json_str (s : string) : string := dq ++ json_escape s ++ dq.

Fixpoint indent (n : nat) : string :=
  match n with 0 => EmptyString | S k => "  " ++ indent k end.

Definition newline_indent (n : nat) : string := String "010"%char (indent n).

(** An array or object at nesting depth [lvl] with [indent=2]: [op cl]
    when empty, otherwise one item per line, the items separated by ','. *)
Definition json_block (lvl : nat) (op cl : string) (items : list string) : string :=
  match items with
  | [] => op ++ cl
  | _ => op ++ newline_indent (S lvl) ++ String.concat ("," ++ newline_indent (S lvl)) items
         ++ newline_indent lvl ++ cl
  end.

(** The keys of the dict built for a record, in insertion order. *)
Definition record_fields (r : PortRecord) : list (string * string) :=
  [("mac", mac r); ("vendor", vendor r); ("switch", switch r); ("port", port r);
   ("vlan", vlan r); ("ipaddress", ipaddress r)].

(** [json.dumps(v, indent=2)] at nesting depth [lvl]. *)
Fixpoint json_dumps (lvl : nat) (v : pyval) : string :=
  match v with
  | PyStr s => json_str s
  | PyDict r =>
      json_block lvl "{" "}" (map (fun kv => json_str (fst kv) ++ ": " ++ json_str (snd kv))
                                  (record_fields r))
  | PyList l => json_block lvl "[" "]" (map (json_dumps (S lvl)) l)
  end.

(** The text [print(json.dumps(v, indent=2))] writes. *)
Definition print_text (v : pyval) : string := json_dumps 0 v ++ String "010"%char EmptyString.

(** A character [json.dumps] writes as it is. *)
Definition json_plain (c : ascii) : bool :=
  Nat.leb 32 (nat_of_ascii c) && Nat.leb (nat_of_ascii c) 126
  && negb (Nat.eqb (nat_of_ascii c) 34) && negb (Nat.eqb (nat_of_ascii c) 92).

(** A printable ASCII character, ' ' to '~'. *)
Definition printable (c : ascii) : bool :=
  Nat.leb 32 (nat_of_ascii c) && Nat.leb (nat_of_ascii c) 126.

(** ** Helpers for stating the stream mode *)

(** The values non-raw resolution returns on [macs], skipping failures. *)
Definition resolved_values (cfg : config) (server : request -> option string)
  (macs : list string) : list pyval :=
  flat_map (fun m => match snd (mac2switchport cfg server m false w0) with
                     | inr v => [v]
                     | inl _ => []
                     end) macs.

(** The non-empty lines of a list of lines. *)
Definition nonempty (lines : list string) : list string :=
  filter (fun l => negb (String.eqb l EmptyString)) lines.

(** The prefix of [xs] a standard output with room [room] lets through. *)
Definition take_room {A} (room : option nat) (xs : list A) : list A :=
  match room with None => xs | Some n => firstn n xs end.

(** [line] is the first non-empty line of [lines]. *)
Definition first_line (lines : list string) (line : string) : Prop :=
  exists pre post, lines = (pre ++ line :: post)%list
                   /\ Forall (fun l => l = EmptyString) pre /\ line <> EmptyString.

(** The MAC an element of a JSON array carries, when it is an object
    whose "mac" is a string. *)
Definition element_mac (ele : json) : option string :=
  match ele with
  | JObj kvs => match dict_get kvs "mac" with Some (JStr m) => Some m | _ => None end
  | _ => None
  end.

(** A JSON batch line followed by a bare MAC line. *)
Definition mixed_input : string := batch_line ++ "
aa:bb:cc:dd:ee:ff".

(** A JSON batch line, a blank line, then the object line above. *)
Definition batch_blank_obj : string := batch_line ++ "

" ++ obj_line.

(** A server answering with one record for aa:bb:cc:dd:ee:ff and with
    two records for every other MAC. *)
Definition url_server (r : request) : option string :=
  if String.eqb (req_url r) (spm_url demo_cfg "aa:bb:cc:dd:ee:ff") then Some csv_one
  else Some csv_two.

(** An environment with both required variables and an empty AKIPS_CERT. *)
Definition demo_env (k : string) : option string :=
  if String.eqb k "AKIPS_URL" then Some "https://akips.example.edu"
  else if String.eqb k "AKIPS_API_RO_PASSWORD" then Some "secret"
  else if String.eqb k "AKIPS_CERT" then Some EmptyString
  else None.

(** ** Proof tactics *)

Ltac all_chars c := destruct c as [[] [] [] [] [] [] [] []]; reflexivity.

Ltac split12 m H :=
  do 12 (destruct m as [|? m]; [simpl in H; discriminate|]);
  destruct m; [|simpl in H; discriminate].

(** ** Examples of the normaliser *)

Example format_mac_dots : format_mac "1122.3344.5566" = Some "11:22:33:44:55:66".
Proof. reflexivity. Qed.
Example format_mac_dashes : format_mac "11-22-33-44-55-66" = Some "11:22:33:44:55:66".
Proof. reflexivity. Qed.
Example format_mac_short : format_mac "aa:bb:cc:dd:ee" = None.
Proof. reflexivity. Qed.
Example format_mac_ws : format_mac " AA:bb cc-DD.ee	FF
" = Some "aa:bb:cc:dd:ee:ff".
Proof. reflexivity. Qed.
Example format_mac_ghij : format_mac "gg:hh:ii:jj:kk:ll" = Some "gg:hh:ii:jj:kk:ll".
Proof. reflexivity. Qed.

(** ** Lemmas on characters and strings *)

Lemma isspace_lower c : py_isspace (py_lower_char c) = py_isspace c.
Proof. all_chars c. Qed.

Lemma low_alnum_lower c : low_alnum (py_lower_char c) = py_isalnum_char c.
Proof. all_chars c. Qed.

Lemma lower_lower c : py_lower_char (py_lower_char c) = py_lower_char c.
Proof. all_chars c. Qed.

Lemma low_alnum_lower_id c : low_alnum c = true -> py_lower_char c = c.
Proof. destruct c as [[] [] [] [] [] [] [] []]; intro H; vm_compute in H |- *; congruence. Qed.

Lemma low_alnum_not_sep c : low_alnum c = true -> is_sep c = false.
Proof. destruct c as [[] [] [] [] [] [] [] []]; intro H; vm_compute in H |- *; congruence. Qed.

Lemma low_alnum_alnum c : low_alnum c = true -> py_isalnum_char c = true.
Proof. destruct c as [[] [] [] [] [] [] [] []]; intro H; vm_compute in H |- *; congruence. Qed.

Lemma hex_not_sep c : is_hex c = true -> is_sep c = false.
Proof. destruct c as [[] [] [] [] [] [] [] []]; intro H; vm_compute in H |- *; congruence. Qed.

Lemma hex_alnum c : is_hex c = true -> py_isalnum_char c = true.
Proof. destruct c as [[] [] [] [] [] [] [] []]; intro H; vm_compute in H |- *; congruence. Qed.

Lemma string_append_nil s : (s ++ EmptyString)%string = s.
Proof. induction s; simpl; congruence. Qed.

Lemma string_append_assoc s1 s2 s3 : ((s1 ++ s2) ++ s3)%string = (s1 ++ (s2 ++ s3))%string.
Proof. induction s1; simpl; congruence. Qed.

Lemma concat_empty_cons x xs : String.concat "" (x :: xs) = (x ++ String.concat "" xs)%string.
Proof. destruct xs; simpl; [rewrite string_append_nil|]; reflexivity. Qed.

(** [''.join(s.split())] removes the whitespace of [s]. *)
Lemma join_split_ws_aux s cur :
  String.concat "" (py_split_ws_aux s cur)
  = (cur ++ string_filter (fun c => negb (py_isspace c)) s)%string.
Proof.
  revert cur; induction s as [|c s IH]; intros cur; simpl.
  - destruct cur; simpl; [reflexivity|]. now rewrite string_append_nil.
  - destruct (py_isspace c); simpl.
    + destruct cur as [|c0 cur0]; [apply IH|].
      rewrite concat_empty_cons, IH. reflexivity.
    + rewrite IH, string_append_assoc. reflexivity.
Qed.

Lemma code_strip s :
  String.concat "" (py_split_ws (py_lower (re_sub_delims s))) = py_lower (stripped s).
Proof.
  unfold py_split_ws; rewrite join_split_ws_aux; simpl.
  unfold py_lower, re_sub_delims, stripped, is_sep.
  induction s as [|c s IH]; simpl; [reflexivity|].
  destruct (is_delim c); simpl; [exact IH|].
  rewrite isspace_lower. destruct (py_isspace c); simpl; [exact IH|].
  now rewrite IH.
Qed.

Lemma length_lower s : String.length (py_lower s) = String.length s.
Proof. unfold py_lower; induction s; simpl; congruence. Qed.

Lemma alnum_lower s :
  forall_chars low_alnum (py_lower s) = forall_chars py_isalnum_char s.
Proof. unfold py_lower; induction s; simpl; [reflexivity|]. now rewrite low_alnum_lower, IHs. Qed.

Lemma alnum_lower' s :
  forall_chars py_isalnum_char (py_lower s) = forall_chars py_isalnum_char s.
Proof.
  unfold py_lower; induction s as [|c s IH]; simpl; [reflexivity|]. rewrite IH. f_equal.
  all_chars c.
Qed.

Lemma lower_low_alnum_id s : forall_chars low_alnum s = true -> py_lower s = s.
Proof.
  induction s as [|c s IH]; simpl; [reflexivity|].
  intros H; apply andb_prop in H as [H1 H2].
  change (String (py_lower_char c) (py_lower s) = String c s).
  rewrite (low_alnum_lower_id c H1), (IH H2). reflexivity.
Qed.

Lemma slices_canonical m :
  String.length m = 12 ->
  String.concat ":" (map (py_slice2 m) [0; 2; 4; 6; 8; 10]) = canonical m.
Proof. intros H; split12 m H; reflexivity. Qed.

(** [format_mac] in terms of the stripped input. *)
Lemma format_mac_eq s :
  format_mac s =
  if Nat.eqb (String.length (stripped s)) 12 && forall_chars py_isalnum_char (stripped s)
  then Some (canonical (py_lower (stripped s))) else None.
Proof.
  unfold format_mac; rewrite code_strip, length_lower.
  unfold py_isalnum; rewrite alnum_lower'.
  destruct (Nat.eqb (String.length (stripped s)) 12) eqn:E; cbn [negb andb]; [|reflexivity].
  apply Nat.eqb_eq in E.
  assert (Hne : String.eqb (py_lower (stripped s)) EmptyString = false).
  { destruct (py_lower (stripped s)) eqn:L; [|reflexivity].
    rewrite <- length_lower, L in E. discriminate. }
  rewrite Hne; cbn [negb andb].
  destruct (forall_chars py_isalnum_char (stripped s)); cbn [negb]; [|reflexivity].
  rewrite slices_canonical; [reflexivity|]. now rewrite length_lower.
Qed.

Lemma format_mac_None_iff s :
  format_mac s = None <->
  String.length (stripped s) <> 12 \/ forall_chars py_isalnum_char (stripped s) = false.
Proof.
  rewrite format_mac_eq.
  destruct (Nat.eqb_spec (String.length (stripped s)) 12);
  destruct (forall_chars py_isalnum_char (stripped s)); simpl;
  split; intros; try discriminate; try tauto; try reflexivity.
  destruct H; congruence.
Qed.

Lemma forall_chars_mono (f g : ascii -> bool) s :
  (forall c, f c = true -> g c = true) ->
  forall_chars f s = true -> forall_chars g s = true.
Proof.
  intros Hfg; induction s as [|c s IH]; simpl; [reflexivity|].
  intros H; apply andb_prop in H as [H1 H2]. now rewrite (Hfg c H1), (IH H2).
Qed.

Lemma spelled_stripped s d :
  spelled s d = true -> py_lower (stripped s) = d /\ forall_chars is_hex (stripped s) = true.
Proof.
  revert d; induction s as [|c s IH]; intros d H; simpl in H.
  - apply String.eqb_eq in H; subst d. split; reflexivity.
  - unfold stripped; cbn [string_filter].
    destruct (is_sep c) eqn:Sep; cbn [negb].
    + apply IH, H.
    + destruct d as [|x d]; [discriminate|].
      apply andb_prop in H as [H H3]; apply andb_prop in H as [H1 H2].
      apply Ascii.eqb_eq in H2. destruct (IH d H3) as [E1 E2].
      split.
      * change (String (py_lower_char c) (py_lower (stripped s)) = String x d).
        now rewrite H2, E1.
      * cbn [forall_chars]. rewrite H1. exact E2.
Qed.

Lemma stripped_canonical m :
  String.length m = 12 -> forall_chars low_alnum m = true -> stripped (canonical m) = m.
Proof.
  intros H Hm; split12 m H; cbn [forall_chars] in Hm.
  repeat match goal with
         | H : (_ && _) = true |- _ => apply andb_prop in H as [? ?]
         end.
  unfold stripped, canonical; cbn [byte_pairs String.concat map String.append string_filter].
  repeat match goal with
         | H : low_alnum ?c = true |- _ => rewrite (low_alnum_not_sep c H); clear H
         end.
  reflexivity.
Qed.

Example spelled_dots : spelled "1122.3344.5566" "112233445566" = true.
Proof. reflexivity. Qed.
Example canonical_example : canonical "112233445566" = "11:22:33:44:55:66".
Proof. reflexivity. Qed.

(** ** The code-point model on ASCII input *)

Lemma u_delim_char c : u_is_delim (N_of_ascii c) = is_delim c.
Proof. all_chars c. Qed.

Lemma u_lower_char c :
  ascii_char c = true -> u_lower_cp (N_of_ascii c) = [N_of_ascii (py_lower_char c)].
Proof. destruct c as [[] [] [] [] [] [] [] []]; intro H; vm_compute in H |- *; congruence. Qed.

Lemma u_space_char c : ascii_char c = true -> u_isspace (N_of_ascii c) = py_isspace c.
Proof. destruct c as [[] [] [] [] [] [] [] []]; intro H; vm_compute in H |- *; congruence. Qed.

Lemma u_alnum_char c : ascii_char c = true -> u_isalnum_cp (N_of_ascii c) = py_isalnum_char c.
Proof. destruct c as [[] [] [] [] [] [] [] []]; intro H; vm_compute in H |- *; congruence. Qed.

Lemma ascii_char_lower c : ascii_char (py_lower_char c) = ascii_char c.
Proof. all_chars c. Qed.

Lemma u_of_string_length s : length (u_of_string s) = String.length s.
Proof. induction s; simpl; congruence. Qed.

Lemma u_of_string_app a b : u_of_string (a ++ b) = (u_of_string a ++ u_of_string b)%list.
Proof. induction a; simpl; congruence. Qed.

Lemma is_ascii_filter f s : is_ascii s = true -> is_ascii (string_filter f s) = true.
Proof.
  unfold is_ascii; induction s as [|c s IH]; simpl; [reflexivity|].
  intros H; apply andb_prop in H as [H1 H2].
  destruct (f c); simpl; [rewrite H1|]; auto.
Qed.

Lemma is_ascii_lower s : is_ascii (py_lower s) = is_ascii s.
Proof.
  unfold is_ascii, py_lower; induction s as [|c s IH]; simpl; [reflexivity|].
  now rewrite ascii_char_lower, IH.
Qed.

Lemma u_re_sub_string s : u_re_sub_delims (u_of_string s) = u_of_string (re_sub_delims s).
Proof.
  unfold u_re_sub_delims, re_sub_delims; induction s as [|c s IH]; simpl; [reflexivity|].
  rewrite u_delim_char. destruct (is_delim c); simpl; congruence.
Qed.

Lemma u_lower_string s : is_ascii s = true -> u_lower (u_of_string s) = u_of_string (py_lower s).
Proof.
  unfold is_ascii, u_lower, py_lower; induction s as [|c s IH]; simpl; [reflexivity|].
  intros H; apply andb_prop in H as [H1 H2].
  rewrite (u_lower_char c H1), (IH H2). reflexivity.
Qed.

(** [''.join(s.split())] removes the whitespace of [s]. *)
Lemma u_join_split_ws_aux s cur :
  List.concat (u_split_ws_aux s cur) = (cur ++ filter (fun c => negb (u_isspace c)) s)%list.
Proof.
  revert cur; induction s as [|c s IH]; intros cur; simpl.
  - destruct cur; simpl; [reflexivity|]. now rewrite app_nil_r.
  - destruct (u_isspace c); simpl.
    + destruct cur as [|c0 cur0]; [apply IH|]. simpl. rewrite IH. reflexivity.
    + rewrite IH, <- app_assoc. reflexivity.
Qed.

Lemma u_space_string s :
  is_ascii s = true ->
  filter (fun c => negb (u_isspace c)) (u_of_string s)
  = u_of_string (string_filter (fun c => negb (py_isspace c)) s).
Proof.
  unfold is_ascii; induction s as [|c s IH]; simpl; [reflexivity|].
  intros H; apply andb_prop in H as [H1 H2].
  rewrite (u_space_char c H1). destruct (py_isspace c); simpl; rewrite (IH H2); reflexivity.
Qed.

Lemma u_alnum_string s :
  is_ascii s = true -> forallb u_isalnum_cp (u_of_string s) = forall_chars py_isalnum_char s.
Proof.
  unfold is_ascii; induction s as [|c s IH]; simpl; [reflexivity|].
  intros H; apply andb_prop in H as [H1 H2].
  now rewrite (u_alnum_char c H1), (IH H2).
Qed.

Lemma u_substring n k s : u_of_string (substring n k s) = firstn k (skipn n (u_of_string s)).
Proof.
  revert s; induction n as [|n IH]; intros s.
  - revert s; induction k as [|k IHk]; intros s; destruct s; simpl; try reflexivity.
    now rewrite IHk.
  - destruct s; simpl; [destruct k; reflexivity|]. apply IH.
Qed.

Lemma u_join_string (xs : list string) :
  u_join [58%N] (map u_of_string xs) = u_of_string (String.concat ":" xs).
Proof.
  induction xs as [|x [|y xs] IH]; [reflexivity|reflexivity|].
  change (u_join [58%N] (map u_of_string (x :: y :: xs)))
    with (u_of_string x ++ [58%N] ++ u_join [58%N] (map u_of_string (y :: xs)))%list.
  rewrite IH. change (String.concat ":" (x :: y :: xs)) with (x ++ ":" ++ String.concat ":" (y :: xs))%string.
  rewrite !u_of_string_app. reflexivity.
Qed.

(** On ASCII input, [format_mac] with CPython's Unicode character data
    gives what the ASCII model gives. *)
Lemma format_mac_u_ascii s :
  is_ascii s = true -> format_mac_u (u_of_string s) = option_map u_of_string (format_mac s).
Proof.
  intros Hs. unfold format_mac_u, format_mac; cbv zeta.
  assert (H1 : is_ascii (re_sub_delims s) = true) by (apply is_ascii_filter, Hs).
  assert (H2 : is_ascii (py_lower (re_sub_delims s)) = true) by (now rewrite is_ascii_lower).
  rewrite u_re_sub_string, (u_lower_string _ H1).
  unfold u_split_ws, py_split_ws. rewrite u_join_split_ws_aux, join_split_ws_aux.
  cbn [app String.append]. rewrite (u_space_string _ H2).
  set (m := string_filter (fun c => negb (py_isspace c)) (py_lower (re_sub_delims s))).
  assert (Hm : is_ascii m = true) by (apply is_ascii_filter, H2).
  rewrite u_of_string_length.
  destruct (Nat.eqb (String.length m) 12) eqn:E; cbn [negb]; [|reflexivity].
  apply Nat.eqb_eq in E.
  unfold u_isalnum, py_isalnum. rewrite u_of_string_length, E, (u_alnum_string _ Hm).
  assert (Hne : String.eqb m EmptyString = false) by (destruct m; [discriminate E|reflexivity]).
  rewrite Hne. cbn [Nat.eqb negb andb].
  destruct (forall_chars py_isalnum_char m); cbn [negb option_map]; [|reflexivity].
  f_equal. rewrite <- u_join_string. cbn [map]. unfold u_slice2, py_slice2.
  rewrite !u_substring. reflexivity.
Qed.

(** ** The MAC normaliser *)

(** C5 (amended): on ASCII input, [format_mac] fails exactly when the
    input, once '.', ':', '-' and whitespace are removed, is not 12
    characters long or holds a character that is not alphanumeric;
    "aa:bb:cc:dd:ee" is rejected. *)
Theorem format_mac_fails_iff (s : string) (Hs : is_ascii s = true) :
  (format_mac s = None <->
   String.length (stripped s) <> 12 \/ forall_chars py_isalnum_char (stripped s) = false)
  /\ format_mac "aa:bb:cc:dd:ee" = None.
Proof. split; [exact (format_mac_None_iff s) | reflexivity]. Qed.

Lemma format_mac_fails_iff_witness :
  is_ascii "aa:bb:cc:dd:ee" = true /\ format_mac "aa:bb:cc:dd:ee" = None.
Proof.
  split; [reflexivity|].
  apply (proj1 (format_mac_fails_iff "aa:bb:cc:dd:ee" eq_refl)).
  left. intro H. vm_compute in H. discriminate H.
Defined.

(** C5 (counterexample): "Iabbccddeeff" with the capital I with dot
    above U+0130 strips to twelve alphanumeric characters, yet
    [str.lower()] turns U+0130 into two code points, so the length
    assertion of [format_mac] fails. *)
Lemma format_mac_dotted_capital_I :
  forallb u_modelled dotted_I_mac = true
  /\ length (u_stripped dotted_I_mac) = 12
  /\ forallb u_isalnum_cp (u_stripped dotted_I_mac) = true
  /\ u_lower [304%N] = [105%N; 775%N]
  /\ length (List.concat (u_split_ws (u_lower (u_re_sub_delims dotted_I_mac)))) = 13
  /\ format_mac_u dotted_I_mac = None.
Proof. vm_compute. repeat split. Qed.

(** C3 (counterexample): "gg:hh:ii:jj:kk:ll" strips to twelve characters
    that are not hex digits, and [format_mac] still returns a value. *)
Lemma format_mac_accepts_non_hex :
  forall_chars is_hex (stripped "gg:hh:ii:jj:kk:ll") = false
  /\ format_mac "gg:hh:ii:jj:kk:ll" = Some "gg:hh:ii:jj:kk:ll".
Proof. split; reflexivity. Qed.

(** C3 (amended): on ASCII input, [format_mac] is an error exactly when
    the stripped input has the wrong length or a non-alphanumeric
    character; otherwise it returns the lowercase stripped input
    re-delimited by colons, which lets the letters g to z through, as for
    "gg:hh:ii:jj:kk:ll". *)
Theorem format_mac_alnum_check (s : string) (Hs : is_ascii s = true) :
  (format_mac s =
     if Nat.eqb (String.length (stripped s)) 12 && forall_chars py_isalnum_char (stripped s)
     then Some (canonical (py_lower (stripped s))) else None)
  /\ format_mac "gg:hh:ii:jj:kk:ll" = Some (canonical "gghhiijjkkll").
Proof. split; [exact (format_mac_eq s) | reflexivity]. Qed.

Lemma format_mac_alnum_check_witness :
  is_ascii "GG-hh.ii jj:kk:ll" = true
  /\ format_mac "GG-hh.ii jj:kk:ll" = Some "gg:hh:ii:jj:kk:ll".
Proof.
  split; [reflexivity|].
  rewrite (proj1 (format_mac_alnum_check "GG-hh.ii jj:kk:ll" eq_refl)). reflexivity.
Defined.

(** C6: every spelling of twelve hex digits with any mixture of '.',
    ':', '-', whitespace and letter case is normalised to the lowercase
    digits in byte pairs joined by colons. *)
Theorem format_mac_canonical (s d : string)
  (Hs : spelled s d = true) (Hd : String.length d = 12) :
  format_mac s = Some (canonical d).
Proof.
  destruct (spelled_stripped s d Hs) as [E Hhex].
  assert (Hlen : String.length (stripped s) = 12) by (now rewrite <- length_lower, E).
  rewrite format_mac_eq, Hlen, E; cbn [Nat.eqb andb].
  rewrite (forall_chars_mono is_hex py_isalnum_char _ hex_alnum Hhex). reflexivity.
Qed.

Lemma format_mac_canonical_witness :
  spelled "1122.3344.5566" "112233445566" = true
  /\ spelled " 11-22-33-44-55-66 " "112233445566" = true
  /\ String.length "112233445566" = 12
  /\ format_mac "1122.3344.5566" = Some "11:22:33:44:55:66"
  /\ format_mac " 11-22-33-44-55-66 " = Some "11:22:33:44:55:66".
Proof.
  split; [reflexivity|]. split; [reflexivity|]. split; [reflexivity|]. split.
  - apply (format_mac_canonical "1122.3344.5566" "112233445566"); reflexivity.
  - apply (format_mac_canonical " 11-22-33-44-55-66 " "112233445566"); reflexivity.
Defined.

(** C7: [format_mac] is idempotent on the values it returns. *)
Theorem format_mac_idempotent (x y : string) (H : format_mac x = Some y) :
  format_mac y = Some y.
Proof.
  rewrite format_mac_eq in H.
  destruct (Nat.eqb (String.length (stripped x)) 12) eqn:E1; [|discriminate].
  destruct (forall_chars py_isalnum_char (stripped x)) eqn:E2; [|discriminate].
  cbn [andb] in H; injection H as <-.
  apply Nat.eqb_eq in E1.
  set (m := py_lower (stripped x)).
  assert (Hm : String.length m = 12) by (unfold m; now rewrite length_lower).
  assert (Ha : forall_chars low_alnum m = true) by (unfold m; now rewrite alnum_lower).
  rewrite format_mac_eq, (stripped_canonical m Hm Ha), Hm; cbn [Nat.eqb andb].
  rewrite (forall_chars_mono low_alnum py_isalnum_char _ low_alnum_alnum Ha).
  now rewrite (lower_low_alnum_id m Ha).
Qed.

Lemma format_mac_idempotent_witness :
  format_mac " AA-BB-CC-DD-EE-FF" = Some "aa:bb:cc:dd:ee:ff"
  /\ format_mac "aa:bb:cc:dd:ee:ff" = Some "aa:bb:cc:dd:ee:ff".
Proof.
  split; [reflexivity|].
  apply (format_mac_idempotent " AA-BB-CC-DD-EE-FF"). reflexivity.
Defined.

Example resolve_one :
  snd (mac2switchport demo_cfg (const_server csv_one) "AA-BB-CC-DD-EE-FF" false w0)
  = inr (PyDict rec_sw1).
Proof. reflexivity. Qed.
Example resolve_two :
  snd (mac2switchport demo_cfg (const_server csv_two) "AA-BB-CC-DD-EE-FF" false w0)
  = inr (PyList [PyDict rec_sw1; PyDict rec_sw2]).
Proof. reflexivity. Qed.
Example resolve_cant :
  snd (mac2switchport demo_cfg (const_server cant_resolve) "aa:bb:cc:dd:ee:ff" false w0)
  = inr (PyList []).
Proof. reflexivity. Qed.
Example resolve_url :
  requests (fst (mac2switchport demo_cfg (const_server cant_resolve) "aabb.ccdd.eeff" true w0))
  = [{| req_url := "https://akips.example.edu/api-spm?username=api-ro;password=secret;mac=aa:bb:cc:dd:ee:ff";
        req_verify := None |}].
Proof. reflexivity. Qed.

(** ** The resolver *)

Lemma mac2switchport_bad cfg server mac_in raw w :
  format_mac mac_in = None -> mac2switchport cfg server mac_in raw w = (w, inl AssertionError).
Proof. intros H; unfold mac2switchport, bind, of_option; now rewrite H. Qed.

Lemma mac2switchport_ok cfg server mac_in raw w m :
  format_mac mac_in = Some m ->
  let r := {| req_url := spm_url cfg m; req_verify := AKIPS_CERT cfg |} in
  mac2switchport cfg server mac_in raw w =
  (after_request w r,
   match server r with
   | None => inl NetworkError
   | Some body =>
       if raw then inr (PyStr body)
       else match parse_lines (py_split "010"%char body) [] with
            | inl e => inl e
            | inr rs => inr (unwrap_single rs)
            end
   end).
Proof.
  intros H r; unfold mac2switchport, bind, of_option, ret; rewrite H.
  unfold http_get; fold r. destruct (server r); [|reflexivity].
  destruct raw; [reflexivity|].
  unfold of_sum; destruct (parse_lines _ _); reflexivity.
Qed.

Lemma spm_url_as_spec cfg m :
  spm_url cfg m = spm_url_spec (AKIPS_URL cfg) (AKIPS_API_RO_PASSWORD cfg) m.
Proof.
  unfold spm_url, spm_url_spec; simpl.
  reflexivity.
Qed.

(** C4: [mac2switchport] normalises the MAC first, and a failure there
    raises [AssertionError] before any request; otherwise exactly one
    request is sent, to [{base_url}/api-spm?username=api-ro;password=
    {secret};mac={normalised mac}] with the configured verification. *)
Theorem resolve_single_query (cfg : config) (server : request -> option string)
  (mac_in : string) (raw : bool) (w : world) :
  (format_mac mac_in = None ->
   mac2switchport cfg server mac_in raw w = (w, inl AssertionError))
  /\ (forall m, format_mac mac_in = Some m ->
      requests (fst (mac2switchport cfg server mac_in raw w))
      = (requests w ++ [{| req_url := spm_url_spec (AKIPS_URL cfg) (AKIPS_API_RO_PASSWORD cfg) m;
                           req_verify := AKIPS_CERT cfg |}])%list).
Proof.
  split; [apply mac2switchport_bad|].
  intros m H. rewrite (mac2switchport_ok cfg server mac_in raw w m H).
  simpl. now rewrite spm_url_as_spec.
Qed.

Lemma resolve_single_query_witness :
  (format_mac "aa:bb:cc" = None
   /\ mac2switchport demo_cfg (const_server csv_one) "aa:bb:cc" false w0 = (w0, inl AssertionError))
  /\ (format_mac "AABB.CCDD.EEFF" = Some "aa:bb:cc:dd:ee:ff"
      /\ requests (fst (mac2switchport demo_cfg (const_server csv_one) "AABB.CCDD.EEFF" false w0))
         = [{| req_url := "https://akips.example.edu/api-spm?username=api-ro;password=secret;mac=aa:bb:cc:dd:ee:ff";
               req_verify := None |}]).
Proof.
  split; split; [reflexivity| |reflexivity|].
  - apply (proj1 (resolve_single_query demo_cfg (const_server csv_one) "aa:bb:cc" false w0)).
    reflexivity.
  - apply (proj2 (resolve_single_query demo_cfg (const_server csv_one) "AABB.CCDD.EEFF" false w0)
                 "aa:bb:cc:dd:ee:ff").
    reflexivity.
Defined.

Lemma unwrap_single_spec rs : unwrap_single rs = result_spec rs.
Proof. destruct rs as [|r [|r' rs]]; reflexivity. Qed.

Lemma parse_lines_ok lines acc :
  forallb (fun line => negb (six_fields line)
                       || match format_mac (nth 0 (csv_fields line) "") with
                          | Some _ => true | None => false end) lines = true ->
  parse_lines lines acc
  = inr (acc ++ flat_map (fun line =>
              let f := csv_fields line in
              if six_fields line then
                match format_mac (nth 0 f "") with
                | Some m => [{| mac := m; vendor := nth 1 f ""; switch := nth 2 f "";
                                port := nth 3 f ""; vlan := nth 4 f "";
                                ipaddress := nth 5 f "" |}]
                | None => []
                end
              else []) lines)%list.
Proof.
  revert acc; induction lines as [|j lines IH]; intros acc H; simpl.
  - now rewrite app_nil_r.
  - apply andb_prop in H as [Hj H]. unfold six_fields, csv_fields in *.
    destruct (Nat.eqb (length (py_split "," j)) 6); cbn [negb orb] in Hj.
    + destruct (format_mac (nth 0 (py_split "," j) "")); [|discriminate].
      rewrite (IH _ H), <- app_assoc. reflexivity.
    + rewrite (IH _ H). reflexivity.
Qed.

Lemma parse_lines_bad lines acc :
  (exists line, In line lines /\ six_fields line = true
                /\ format_mac (nth 0 (csv_fields line) "") = None) ->
  parse_lines lines acc = inl AssertionError.
Proof.
  revert acc; induction lines as [|j lines IH]; intros acc [line [Hin [H6 Hf]]];
    [destruct Hin|].
  simpl. destruct Hin as [<-|Hin].
  - unfold six_fields, csv_fields in *. rewrite H6, Hf. reflexivity.
  - destruct (Nat.eqb (length (py_split "," j)) 6);
      [destruct (format_mac (nth 0 (py_split "," j) ""))|];
      try reflexivity; apply IH; exists line; auto.
Qed.

(** C1 (counterexample): a 6-field line whose first field is not a MAC
    makes non-raw resolution raise instead of yielding a record. *)
Lemma resolve_bad_record_mac :
  snd (mac2switchport demo_cfg (const_server "x,Acme,sw1,Gi0/1,vlan10,10.0.0.5
") "aa:bb:cc:dd:ee:ff" false w0) = inl AssertionError.
Proof. reflexivity. Qed.

(** C1 (amended): when the first field of every 6-field response line
    normalises, non-raw resolution returns one record per 6-field line,
    in order, bound as (mac, vendor, switch, port, vlan, ipaddress) with
    the mac normalised: the record alone when there is exactly one, the
    sequence (possibly empty) otherwise. *)
Theorem resolve_records (cfg : config) (server : request -> option string)
  (mac_in m body : string) (w : world)
  (Hm : format_mac mac_in = Some m)
  (Hbody : server {| req_url := spm_url cfg m; req_verify := AKIPS_CERT cfg |} = Some body)
  (Hok : record_macs_ok body = true) :
  snd (mac2switchport cfg server mac_in false w) = inr (result_spec (records_spec body)).
Proof.
  rewrite (mac2switchport_ok cfg server mac_in false w m Hm); cbn [snd].
  rewrite Hbody. unfold record_macs_ok in Hok.
  rewrite (parse_lines_ok _ [] Hok). now rewrite unwrap_single_spec.
Qed.

Lemma resolve_records_witness :
  format_mac "aa:bb:cc:dd:ee:ff" = Some "aa:bb:cc:dd:ee:ff"
  /\ record_macs_ok csv_two = true
  /\ records_spec csv_two = [rec_sw1; rec_sw2]
  /\ snd (mac2switchport demo_cfg (const_server csv_two) "aa:bb:cc:dd:ee:ff" false w0)
     = inr (result_spec [rec_sw1; rec_sw2]).
Proof.
  split; [reflexivity|]. split; [reflexivity|]. split; [reflexivity|].
  change [rec_sw1; rec_sw2] with (records_spec csv_two).
  apply (resolve_records demo_cfg (const_server csv_two) "aa:bb:cc:dd:ee:ff"
           "aa:bb:cc:dd:ee:ff" csv_two w0); reflexivity.
Defined.

Lemma parse_lines_none lines acc :
  forallb (fun line => negb (six_fields line)) lines = true ->
  parse_lines lines acc = inr acc.
Proof.
  induction lines as [|j lines IH]; intros H; simpl; [reflexivity|].
  apply andb_prop in H as [Hj H]. unfold six_fields, csv_fields in Hj.
  destruct (Nat.eqb (length (py_split "," j)) 6); [discriminate|]. apply IH, H.
Qed.

(** C8: a body with no 6-field line, such as the API's "Can't resolve
    mac address ..." message, gives an empty sequence in non-raw mode
    and is returned unmodified in raw mode. *)
Theorem resolve_no_records (cfg : config) (server : request -> option string)
  (mac_in m body : string) (w : world)
  (Hm : format_mac mac_in = Some m)
  (Hbody : server {| req_url := spm_url cfg m; req_verify := AKIPS_CERT cfg |} = Some body)
  (Hnone : forallb (fun line => negb (six_fields line)) (py_split "010"%char body) = true) :
  snd (mac2switchport cfg server mac_in false w) = inr (PyList [])
  /\ snd (mac2switchport cfg server mac_in true w) = inr (PyStr body).
Proof.
  rewrite (mac2switchport_ok cfg server mac_in false w m Hm),
          (mac2switchport_ok cfg server mac_in true w m Hm); cbn [snd].
  rewrite Hbody. split; [|reflexivity].
  rewrite (parse_lines_none _ [] Hnone). reflexivity.
Qed.

Lemma resolve_no_records_witness :
  format_mac "aa:bb:cc:dd:ee:ff" = Some "aa:bb:cc:dd:ee:ff"
  /\ snd (mac2switchport demo_cfg (const_server cant_resolve) "aa:bb:cc:dd:ee:ff" false w0)
     = inr (PyList [])
  /\ snd (mac2switchport demo_cfg (const_server cant_resolve) "aa:bb:cc:dd:ee:ff" true w0)
     = inr (PyStr "Can't resolve mac address aa:bb:cc:dd:ee:ff
").
Proof.
  split; [reflexivity|].
  apply (resolve_no_records demo_cfg (const_server cant_resolve) "aa:bb:cc:dd:ee:ff"
           "aa:bb:cc:dd:ee:ff" cant_resolve w0); reflexivity.
Defined.

(** C9: a 6-field response line whose first field does not strip to
    twelve alphanumeric characters makes non-raw resolution raise
    [AssertionError]: the line is not dropped and no record, also of an
    earlier line, is returned. *)
Theorem resolve_bad_line_raises (cfg : config) (server : request -> option string)
  (mac_in m body : string) (w : world)
  (Hm : format_mac mac_in = Some m)
  (Hbody : server {| req_url := spm_url cfg m; req_verify := AKIPS_CERT cfg |} = Some body)
  (Hbad : exists line, In line (py_split "010"%char body)
          /\ length (csv_fields line) = 6
          /\ (String.length (stripped (nth 0 (csv_fields line) "")) <> 12
              \/ forall_chars py_isalnum_char (stripped (nth 0 (csv_fields line) "")) = false)) :
  snd (mac2switchport cfg server mac_in false w) = inl AssertionError.
Proof.
  rewrite (mac2switchport_ok cfg server mac_in false w m Hm); cbn [snd].
  rewrite Hbody, parse_lines_bad; [reflexivity|].
  destruct Hbad as [line [Hin [H6 Hf]]]. exists line. split; [exact Hin|]. split.
  - unfold six_fields. now rewrite H6.
  - now apply format_mac_None_iff.
Qed.

Lemma resolve_bad_line_raises_witness :
  snd (mac2switchport demo_cfg (const_server csv_bad) "aa:bb:cc:dd:ee:ff" false w0)
  = inl AssertionError.
Proof.
  apply (resolve_bad_line_raises demo_cfg (const_server csv_bad) "aa:bb:cc:dd:ee:ff"
           "aa:bb:cc:dd:ee:ff" csv_bad w0);
    [reflexivity|reflexivity|].
  exists "total,-,-,-,-,-". split; [simpl; auto|]. split; [reflexivity|].
  left; simpl; lia.
Defined.

(** ** The stream mode *)

Example stream_batch :
  let r := main_stream demo_cfg (const_server csv_one) json_loads_demo batch_line w0 in
  length (requests (fst r)) = 2
  /\ printed (fst r) = [PyList [PyDict rec_sw1; PyDict rec_sw1]]
  /\ snd r = inr tt.
Proof. vm_compute. repeat split. Qed.

Example stream_bare_lines :
  let r := main_stream demo_cfg (const_server csv_one) json_loads_demo
             "aa:bb:cc:dd:ee:ff
1122.3344.5566
" w0 in
  printed (fst r) = [PyDict rec_sw1; PyDict rec_sw1] /\ snd r = inr tt.
Proof. vm_compute. split; reflexivity. Qed.

(** C2 (code bug): with the consumer gone ([pipe_room] 0), the JSON
    object path lets [BrokenPipeError] escape [main], while the bare-line
    path of the same program ends cleanly, also after a first print. *)
Theorem stream_broken_pipe_paths :
  snd (main_stream demo_cfg (const_server csv_one) json_loads_demo batch_line (w_room 0))
  = inl BrokenPipeError
  /\ snd (main_stream demo_cfg (const_server csv_one) json_loads_demo
            "aa:bb:cc:dd:ee:ff" (w_room 0)) = inr tt
  /\ main_stream demo_cfg (const_server csv_one) json_loads_demo
       "aa:bb:cc:dd:ee:ff
1122.3344.5566" (w_room 1)
     = ({| requests := [{| req_url := spm_url demo_cfg "aa:bb:cc:dd:ee:ff"; req_verify := None |};
                        {| req_url := spm_url demo_cfg "11:22:33:44:55:66"; req_verify := None |}];
           printed := [PyDict rec_sw1]; pipe_room := Some 0 |}, inr tt).
Proof. vm_compute. repeat split. Qed.

Lemma format_mac_one_char c : format_mac (String c EmptyString) = None.
Proof. all_chars c. Qed.

(** ** Further properties of the normaliser *)

Lemma forall_chars_app f a b :
  forall_chars f (a ++ b) = forall_chars f a && forall_chars f b.
Proof. induction a as [|c a IH]; simpl; [reflexivity|]. now rewrite IH, andb_assoc. Qed.

Lemma stripped_app a b : stripped (a ++ b) = (stripped a ++ stripped b)%string.
Proof.
  unfold stripped; induction a as [|c a IH]; simpl; [reflexivity|].
  destruct (negb (is_sep c)); simpl; now rewrite IH.
Qed.

Lemma is_sep_lower c : is_sep (py_lower_char c) = is_sep c.
Proof. all_chars c. Qed.

Lemma stripped_lower s : stripped (py_lower s) = py_lower (stripped s).
Proof.
  unfold stripped, py_lower; induction s as [|c s IH]; simpl; [reflexivity|].
  rewrite is_sep_lower. destruct (negb (is_sep c)); simpl; now rewrite IH.
Qed.

Lemma py_lower_idem s : py_lower (py_lower s) = py_lower s.
Proof. unfold py_lower; induction s as [|c s IH]; simpl; [reflexivity|]. now rewrite lower_lower, IH. Qed.

(** What [format_mac] returns is canonical, and a fixed point of it. *)
Lemma format_mac_fixed x y :
  format_mac x = Some y ->
  exists m, y = canonical m /\ String.length m = 12 /\ forall_chars low_alnum m = true
            /\ format_mac y = Some y.
Proof.
  intros H. rewrite format_mac_eq in H.
  destruct (Nat.eqb (String.length (stripped x)) 12) eqn:E1; [|discriminate].
  destruct (forall_chars py_isalnum_char (stripped x)) eqn:E2; [|discriminate].
  cbn [andb] in H; injection H as <-.
  apply Nat.eqb_eq in E1.
  set (m := py_lower (stripped x)).
  assert (Hm : String.length m = 12) by (unfold m; now rewrite length_lower).
  assert (Ha : forall_chars low_alnum m = true) by (unfold m; now rewrite alnum_lower).
  exists m. split; [reflexivity|]. split; [exact Hm|]. split; [exact Ha|].
  rewrite format_mac_eq, (stripped_canonical m Hm Ha), Hm; cbn [Nat.eqb andb].
  rewrite (forall_chars_mono low_alnum py_isalnum_char _ low_alnum_alnum Ha).
  now rewrite (lower_low_alnum_id m Ha).
Qed.

Lemma canonical_length m : String.length m = 12 -> String.length (canonical m) = 17.
Proof. intros H; split12 m H; reflexivity. Qed.

(** On ASCII input, a normalised MAC is 17 characters long: twelve
    lowercase letters or digits in pairs, joined by colons. *)
Theorem format_mac_shape (s y : string) (Hs : is_ascii s = true) (H : format_mac s = Some y) :
  String.length y = 17
  /\ exists m, y = canonical m /\ String.length m = 12 /\ forall_chars low_alnum m = true.
Proof.
  destruct (format_mac_fixed s y H) as [m [-> [Hm [Ha _]]]].
  split; [now apply canonical_length|]. exists m. auto.
Qed.

Lemma format_mac_shape_witness :
  format_mac "A1B2.C3D4.E5F6" = Some "a1:b2:c3:d4:e5:f6"
  /\ String.length "a1:b2:c3:d4:e5:f6" = 17.
Proof.
  split; [reflexivity|].
  exact (proj1 (format_mac_shape "A1B2.C3D4.E5F6" "a1:b2:c3:d4:e5:f6" eq_refl eq_refl)).
Defined.

(** In ASCII input, inserting or removing a '.', ':', '-' or whitespace
    character anywhere does not change what [format_mac] does. *)
Theorem format_mac_sep_insensitive (s1 s2 : string) (c : ascii)
  (Hs1 : is_ascii s1 = true) (Hs2 : is_ascii s2 = true) (Hc : is_sep c = true) :
  format_mac (s1 ++ String c s2) = format_mac (s1 ++ s2).
Proof.
  assert (E : stripped (String c s2) = stripped s2).
  { unfold stripped; cbn [string_filter]. now rewrite Hc. }
  rewrite !format_mac_eq, !stripped_app, E. reflexivity.
Qed.

Lemma format_mac_sep_insensitive_witness :
  format_mac ("aabbcc" ++ String "-"%char "ddeeff") = format_mac ("aabbcc" ++ "ddeeff").
Proof. apply format_mac_sep_insensitive; reflexivity. Defined.

(** On ASCII input, [format_mac] ignores letter case. *)
Theorem format_mac_case_insensitive (s : string) (Hs : is_ascii s = true) :
  format_mac (py_lower s) = format_mac s.
Proof.
  rewrite !format_mac_eq, stripped_lower, length_lower, alnum_lower', py_lower_idem.
  reflexivity.
Qed.

Lemma format_mac_case_insensitive_witness :
  format_mac (py_lower "AA-BB-CC-DD-EE-FF") = format_mac "AA-BB-CC-DD-EE-FF".
Proof. apply format_mac_case_insensitive. reflexivity. Defined.

(** ** Further properties of the resolver *)

Definition no_comma_newline (c : ascii) : bool :=
  negb (Ascii.eqb c ","%char) && negb (Ascii.eqb c "010"%char).

(** A record as [mac2switchport] builds it: a normalised mac, and text
    fields with neither ',' nor a newline. *)
Definition well_formed_record (r : PortRecord) : Prop :=
  format_mac (mac r) = Some (mac r)
  /\ Forall (fun f => forall_chars no_comma_newline f = true)
            [vendor r; switch r; port r; vlan r; ipaddress r].

Lemma split_pieces_keep (P : ascii -> bool) sep s cur :
  forall_chars P s = true -> forall_chars P cur = true ->
  Forall (fun x => forall_chars P x = true) (py_split_aux sep s cur).
Proof.
  revert cur; induction s as [|c s IH]; intros cur Hs Hc; simpl in *.
  - constructor; [exact Hc|constructor].
  - apply andb_prop in Hs as [H1 H2].
    destruct (Ascii.eqb c sep).
    + constructor; [exact Hc|]. apply IH; auto.
    + apply IH; [exact H2|]. rewrite forall_chars_app, Hc; simpl. now rewrite H1.
Qed.

Lemma split_pieces_no_sep sep s cur :
  forall_chars (fun c => negb (Ascii.eqb c sep)) cur = true ->
  Forall (fun x => forall_chars (fun c => negb (Ascii.eqb c sep)) x = true)
         (py_split_aux sep s cur).
Proof.
  revert cur; induction s as [|c s IH]; intros cur Hc; simpl.
  - constructor; [exact Hc|constructor].
  - destruct (Ascii.eqb c sep) eqn:E.
    + constructor; [exact Hc|]. apply IH; reflexivity.
    + apply IH. rewrite forall_chars_app, Hc; simpl. now rewrite E.
Qed.

Lemma Forall_nth' {A} (P : A -> Prop) l d i : Forall P l -> P d -> P (nth i l d).
Proof.
  intros H Hd; revert i; induction H; intros [|i]; simpl; auto.
Qed.

Lemma forall_chars_and f g s :
  forall_chars (fun c => f c && g c) s = forall_chars f s && forall_chars g s.
Proof.
  induction s as [|c s IH]; simpl; [reflexivity|]. rewrite IH.
  destruct (f c), (g c), (forall_chars f s), (forall_chars g s); reflexivity.
Qed.

Lemma parse_lines_records lines acc rs :
  Forall (fun l => forall_chars (fun c => negb (Ascii.eqb c "010"%char)) l = true) lines ->
  Forall well_formed_record acc ->
  parse_lines lines acc = inr rs -> Forall well_formed_record rs.
Proof.
  revert acc; induction lines as [|j lines IH]; intros acc Hl Hacc H; simpl in H.
  - now injection H as <-.
  - inversion Hl as [|? ? Hj Hl']; subst.
    destruct (Nat.eqb (length (py_split "," j)) 6); [|eapply IH; eauto].
    destruct (format_mac (nth 0 (py_split "," j) "")) as [m|] eqn:Em; [|discriminate].
    eapply IH; [exact Hl'| |exact H].
    apply Forall_app; split; [exact Hacc|]. constructor; [|constructor].
    assert (Hf : Forall (fun x => forall_chars no_comma_newline x = true) (py_split "," j)).
    { unfold no_comma_newline. eapply Forall_impl; [|apply Forall_and;
        [apply (split_pieces_no_sep "," j "" eq_refl)
        |apply (split_pieces_keep _ "," j "" Hj eq_refl)]].
      intros x [H1 H2]. rewrite forall_chars_and, H1, H2. reflexivity. }
    split; [cbn [mac]; destruct (format_mac_fixed _ _ Em) as [? [_ [_ [_ ?]]]]; assumption|].
    repeat constructor; cbn; apply (Forall_nth' _ _ _ _ Hf); reflexivity.
Qed.

(** Every record of a non-raw result carries a normalised mac and text
    fields without ',' or newline, whatever the response body. *)
Theorem resolve_records_well_formed (cfg : config) (server : request -> option string)
  (mac_in : string) (w : world) (v : pyval)
  (H : snd (mac2switchport cfg server mac_in false w) = inr v) :
  match v with
  | PyDict r => well_formed_record r
  | PyList l => Forall (fun x => exists r, x = PyDict r /\ well_formed_record r) l
  | PyStr _ => False
  end.
Proof.
  destruct (format_mac mac_in) as [m|] eqn:Em.
  2:{ rewrite (mac2switchport_bad _ _ _ _ _ Em) in H. discriminate. }
  rewrite (mac2switchport_ok cfg server mac_in false w m Em) in H; cbn [snd] in H.
  destruct (server _) as [body|]; [|discriminate].
  destruct (parse_lines _ []) as [e|rs] eqn:Ep; [discriminate|].
  injection H as <-.
  assert (Hrs : Forall well_formed_record rs).
  { eapply parse_lines_records; [|constructor|exact Ep].
    apply (split_pieces_no_sep "010"%char body "" eq_refl). }
  assert (Hmap : Forall (fun x => exists r, x = PyDict r /\ well_formed_record r) (map PyDict rs)).
  { apply Forall_map. eapply Forall_impl; [|exact Hrs]. intros x Hx; eauto. }
  destruct rs as [|r [|r' rs]]; [exact Hmap| |exact Hmap].
  simpl. now inversion Hrs.
Qed.

Lemma resolve_records_well_formed_witness :
  snd (mac2switchport demo_cfg (const_server csv_one) "aa:bb:cc:dd:ee:ff" false w0)
  = inr (PyDict rec_sw1)
  /\ well_formed_record rec_sw1.
Proof.
  split; [reflexivity|].
  exact (resolve_records_well_formed demo_cfg (const_server csv_one) "aa:bb:cc:dd:ee:ff"
           w0 (PyDict rec_sw1) eq_refl).
Defined.

(** A failed request is not retried: exactly one request is recorded and
    [NetworkError] propagates, in raw and in non-raw mode. *)
Theorem resolve_network_error (cfg : config) (server : request -> option string)
  (mac_in m : string) (raw : bool) (w : world)
  (Hm : format_mac mac_in = Some m)
  (Hdown : server {| req_url := spm_url cfg m; req_verify := AKIPS_CERT cfg |} = None) :
  mac2switchport cfg server mac_in raw w
  = ({| requests := (requests w ++ [{| req_url := spm_url cfg m; req_verify := AKIPS_CERT cfg |}])%list;
        printed := printed w; pipe_room := pipe_room w |}, inl NetworkError).
Proof. rewrite (mac2switchport_ok cfg server mac_in raw w m Hm), Hdown. reflexivity. Qed.

Lemma resolve_network_error_witness :
  mac2switchport demo_cfg (fun _ => None) "aa:bb:cc:dd:ee:ff" true w0
  = ({| requests := [{| req_url := spm_url demo_cfg "aa:bb:cc:dd:ee:ff"; req_verify := None |}];
        printed := []; pipe_room := None |}, inl NetworkError).
Proof. apply (resolve_network_error demo_cfg (fun _ => None) _ "aa:bb:cc:dd:ee:ff"); reflexivity. Defined.

(** ** Configuration loading *)

(** The program starts exactly when AKIPS_URL and AKIPS_API_RO_PASSWORD
    are both set to non-empty values. *)
Theorem load_config_requires (env : string -> option string) :
  (exists cfg, load_config env = Some cfg)
  <-> (exists u, env "AKIPS_URL" = Some u /\ u <> EmptyString)
      /\ (exists p, env "AKIPS_API_RO_PASSWORD" = Some p /\ p <> EmptyString).
Proof.
  unfold load_config. split.
  - destruct (env "AKIPS_URL") as [[|cu u]|]; [intros [? H]; discriminate| |intros [? H]; discriminate].
    destruct (env "AKIPS_API_RO_PASSWORD") as [[|cp p]|]; [intros [? H]; discriminate| |intros [? H]; discriminate].
    intros _. split; eexists; split; try reflexivity; discriminate.
  - intros [[u [Hu Hu']] [p [Hp Hp']]]. rewrite Hu, Hp.
    destruct u; [contradiction|]. destruct p; [contradiction|]. eexists; reflexivity.
Qed.

(** The loaded configuration holds the two variables as they are, and
    TLS verification is off exactly when AKIPS_CERT is unset or empty;
    otherwise its value is the certificate path. *)
Theorem load_config_values (env : string -> option string) (cfg : config)
  (H : load_config env = Some cfg) :
  env "AKIPS_URL" = Some (AKIPS_URL cfg)
  /\ env "AKIPS_API_RO_PASSWORD" = Some (AKIPS_API_RO_PASSWORD cfg)
  /\ (AKIPS_CERT cfg = None <-> env "AKIPS_CERT" = None \/ env "AKIPS_CERT" = Some EmptyString)
  /\ (forall path, AKIPS_CERT cfg = Some path -> env "AKIPS_CERT" = Some path).
Proof.
  unfold load_config in H.
  destruct (env "AKIPS_URL") as [[|cu u]|] eqn:Eu; try discriminate.
  destruct (env "AKIPS_API_RO_PASSWORD") as [[|cp p]|] eqn:Ep; try discriminate.
  injection H as <-; cbn.
  split; [reflexivity|]. split; [reflexivity|].
  destruct (env "AKIPS_CERT") as [[|cc c]|]; cbn.
  - split; [split; auto|]. intros ? ?; discriminate.
  - split; [split; [discriminate|intros [?|?]; discriminate]|]. intros ? E; now injection E as ->.
  - split; [split; auto|]. intros ? ?; discriminate.
Qed.

Lemma load_config_values_witness :
  load_config demo_env = Some demo_cfg
  /\ (AKIPS_CERT demo_cfg = None <-> demo_env "AKIPS_CERT" = None
                                     \/ demo_env "AKIPS_CERT" = Some EmptyString).
Proof.
  split; [reflexivity|].
  exact (proj1 (proj2 (proj2 (load_config_values demo_env demo_cfg eq_refl)))).
Defined.

Lemma load_config_requires_witness :
  (exists cfg, load_config demo_env = Some cfg)
  /\ load_config (fun k => if String.eqb k "AKIPS_URL" then Some EmptyString else demo_env k) = None.
Proof.
  split; [|reflexivity].
  apply (proj2 (load_config_requires demo_env)).
  split; eexists; split; try reflexivity; discriminate.
Defined.

(** ** Flag mode *)

Lemma json_escape_char_printable c : forall_chars printable (json_escape_char c) = true.
Proof. all_chars c. Qed.

Lemma json_escape_char_plain c : json_plain c = true -> json_escape_char c = String c EmptyString.
Proof. destruct c as [[] [] [] [] [] [] [] []]; intro H; vm_compute in H |- *; congruence. Qed.

Lemma json_escape_printable s : forall_chars printable (json_escape s) = true.
Proof.
  induction s as [|c s IH]; cbn [json_escape]; [reflexivity|].
  now rewrite forall_chars_app, json_escape_char_printable, IH.
Qed.

Lemma json_escape_plain s : forall_chars json_plain s = true -> json_escape s = s.
Proof.
  induction s as [|c s IH]; cbn [json_escape forall_chars]; [reflexivity|].
  intros H; apply andb_prop in H as [H1 H2].
  rewrite (json_escape_char_plain c H1), (IH H2). reflexivity.
Qed.

(** With --raw and an open standard output, flag mode prints the API's
    response body as one JSON string, [json.dumps(r.text)]: the body
    between double quotes, its characters escaped into printable ASCII,
    so on a single line even for a multi-line body; a body of printable
    ASCII without double quote or backslash appears as it is. *)
Theorem flag_raw_prints_json_string (cfg : config) (server : request -> option string)
  (args : cli_args) (m body : string) (w : world)
  (Hraw : arg_raw args = true)
  (Hm : format_mac (arg_mac args) = Some m)
  (Hbody : server {| req_url := spm_url cfg m; req_verify := AKIPS_CERT cfg |} = Some body)
  (Hopen : pipe_room w = None) :
  snd (main_flag cfg server args w) = inr tt
  /\ printed (fst (main_flag cfg server args w)) = (printed w ++ [PyStr body])%list
  /\ print_text (PyStr body) = dq ++ json_escape body ++ dq ++ String "010"%char EmptyString
  /\ forall_chars printable (json_escape body) = true
  /\ (forall_chars json_plain body = true -> json_escape body = body).
Proof.
  unfold main_flag, bind.
  rewrite Hraw, (mac2switchport_ok cfg server (arg_mac args) true w m Hm), Hbody.
  unfold print_flush; cbn - [json_escape]. rewrite Hopen.
  split; [reflexivity|]. split; [reflexivity|]. split.
  - unfold print_text, json_str; cbn [json_dumps]. now rewrite !string_append_assoc.
  - split; [apply json_escape_printable|apply json_escape_plain].
Qed.

Lemma flag_raw_prints_json_string_witness :
  printed (fst (main_flag demo_cfg (const_server cant_resolve)
                  {| arg_mac := "aa:bb:cc:dd:ee:ff"; arg_raw := true; arg_debug := false |} w0))
  = [PyStr cant_resolve]
  /\ print_text (PyStr cant_resolve)
     = dq ++ "Can't resolve mac address aa:bb:cc:dd:ee:ff\n" ++ dq ++ String "010"%char EmptyString.
Proof.
  destruct (flag_raw_prints_json_string demo_cfg (const_server cant_resolve)
              {| arg_mac := "aa:bb:cc:dd:ee:ff"; arg_raw := true; arg_debug := false |}
              "aa:bb:cc:dd:ee:ff" cant_resolve w0 eq_refl eq_refl eq_refl eq_refl)
    as [_ [Hp [Ht _]]].
  split; [exact Hp|]. rewrite Ht. reflexivity.
Defined.

(** ** Further properties of the stream mode *)

Lemma mac2switchport_frame cfg server mac_in raw w :
  printed (fst (mac2switchport cfg server mac_in raw w)) = printed w
  /\ pipe_room (fst (mac2switchport cfg server mac_in raw w)) = pipe_room w
  /\ snd (mac2switchport cfg server mac_in raw w) = snd (mac2switchport cfg server mac_in raw w0).
Proof.
  destruct (format_mac mac_in) as [m|] eqn:Em.
  - rewrite !(mac2switchport_ok cfg server mac_in raw _ m Em). cbn. auto.
  - rewrite !(mac2switchport_bad cfg server mac_in raw _ Em). cbn. auto.
Qed.

Lemma run_split {A} (m : M A) w : m w = (fst (m w), snd (m w)).
Proof. destruct (m w); reflexivity. Qed.

Lemma for_each_app {A} (xs ys : list A) f w :
  for_each (xs ++ ys) f w
  = match for_each xs f w with
    | (w', inl e) => (w', inl e)
    | (w', inr _) => for_each ys f w'
    end.
Proof.
  revert w; induction xs as [|x xs IH]; intros w; simpl; [reflexivity|].
  unfold bind. destruct (f x w) as [w1 [e|u]]; [reflexivity|]. apply IH.
Qed.

Lemma for_each_blank (f : string -> M unit) pre w :
  (forall w, f EmptyString w = (w, inr tt)) ->
  Forall (fun l => l = EmptyString) pre -> for_each pre f w = (w, inr tt).
Proof.
  intros Hf Hpre; revert w; induction Hpre as [|l pre Hl Hpre IH]; intros w; simpl;
    [reflexivity|].
  subst l; unfold bind; rewrite Hf; apply IH.
Qed.

Lemma json_line_blank cfg server json_loads w :
  json_line cfg server json_loads EmptyString w = (w, inr tt).
Proof. reflexivity. Qed.

Lemma bare_line_blank cfg server w : bare_line cfg server EmptyString w = (w, inr tt).
Proof. reflexivity. Qed.

Lemma json_line_nonempty cfg server json_loads line :
  line <> EmptyString ->
  json_line cfg server json_loads line =
  (json_in <- of_option JSONDecodeError (json_loads line) ;;
   match json_in with
   | JObj _ =>
       macs <- getitem_mac json_in ;;
       xs <- py_iter macs ;;
       retval <- collect xs (fun m => mac2switchport_json cfg server m false) ;;
       print_flush (PyList retval)
   | JArr eles =>
       retval <- collect eles (fun ele => m <- getitem_mac ele ;; mac2switchport_json cfg server m false) ;;
       print_flush (PyList retval)
   | _ => ret tt
   end).
Proof.
  intros H; unfold json_line. destruct (String.eqb_spec line EmptyString); [contradiction|].
  reflexivity.
Qed.

(** The JSON pass up to and including the first non-empty line. *)
Lemma json_pass_first cfg server json_loads pre line post w :
  Forall (fun l => l = EmptyString) pre -> line <> EmptyString ->
  for_each (pre ++ line :: post) (json_line cfg server json_loads) w
  = match json_line cfg server json_loads line w with
    | (w', inl e) => (w', inl e)
    | (w', inr _) => for_each post (json_line cfg server json_loads) w'
    end.
Proof.
  intros Hpre Hne. rewrite for_each_app, (for_each_blank _ pre w (json_line_blank cfg server json_loads) Hpre).
  cbn [for_each]. unfold bind at 1. destruct (json_line cfg server json_loads line w) as [w' [e|u]];
    reflexivity.
Qed.

(** C10: a JSON object line whose "mac" is one non-empty string makes
    the dispatcher iterate over its characters.  Wherever the line stands
    in the input, once the JSON pass has got through the lines before it,
    the first one-character "MAC" raises [AssertionError]; [main] ends
    with it, with no request sent and nothing printed for that line. *)
Theorem stream_mac_string_iterated (cfg : config) (server : request -> option string)
  (json_loads : string -> option json) (stdin line : string) (pre post : list string)
  (kvs : list (string * json)) (c : ascii) (s : string) (w w' : world)
  (Hsplit : py_split "010"%char stdin = (pre ++ line :: post)%list)
  (Hpre : for_each pre (json_line cfg server json_loads) w = (w', inr tt))
  (Hne : line <> EmptyString)
  (Hjson : json_loads line = Some (JObj kvs))
  (Hmac : dict_get kvs "mac" = Some (JStr (String c s))) :
  main_stream cfg server json_loads stdin w = (w', inl AssertionError).
Proof.
  assert (Hline : json_line cfg server json_loads line w' = (w', inl AssertionError)).
  { rewrite (json_line_nonempty cfg server json_loads line Hne).
    unfold bind, of_option. rewrite Hjson.
    unfold ret, getitem_mac, of_option. rewrite Hmac.
    unfold py_iter, ret. cbn [string_chars collect]. unfold bind.
    cbn [mac2switchport_json].
    rewrite (mac2switchport_bad cfg server (String c EmptyString) false w' (format_mac_one_char c)).
    reflexivity. }
  unfold main_stream, try_except. rewrite Hsplit, for_each_app, Hpre.
  cbn [for_each]. unfold bind at 1. rewrite Hline. reflexivity.
Qed.

Lemma stream_mac_string_iterated_witness :
  main_stream demo_cfg (const_server csv_one) json_loads_demo batch_blank_obj w0
  = ({| requests := [{| req_url := spm_url demo_cfg "aa:bb:cc:dd:ee:ff"; req_verify := None |};
                     {| req_url := spm_url demo_cfg "11:22:33:44:55:66"; req_verify := None |}];
        printed := [PyList [PyDict rec_sw1; PyDict rec_sw1]]; pipe_room := None |},
     inl AssertionError).
Proof.
  apply (stream_mac_string_iterated demo_cfg (const_server csv_one) json_loads_demo
           batch_blank_obj obj_line [batch_line; EmptyString] [] [("mac", JStr "aa:bb:cc:dd:ee:ff")]
           "a"%char "a:bb:cc:dd:ee:ff" w0).
  - vm_compute. reflexivity.
  - vm_compute. reflexivity.
  - discriminate.
  - reflexivity.
  - reflexivity.
Defined.

(** A first non-empty line that is a JSON object without a "mac" key
    ends [main] with [KeyError], before any request or print. *)
Theorem stream_missing_key (cfg : config) (server : request -> option string)
  (json_loads : string -> option json) (stdin line : string) (pre post : list string)
  (kvs : list (string * json)) (w : world)
  (Hsplit : py_split "010"%char stdin = (pre ++ line :: post)%list)
  (Hpre : Forall (fun l => l = EmptyString) pre) (Hne : line <> EmptyString)
  (Hjson : json_loads line = Some (JObj kvs))
  (Hkey : dict_get kvs "mac" = None) :
  main_stream cfg server json_loads stdin w = (w, inl KeyError).
Proof.
  unfold main_stream. rewrite Hsplit. unfold try_except.
  rewrite (json_pass_first cfg server json_loads pre line post w Hpre Hne),
          (json_line_nonempty cfg server json_loads line Hne).
  unfold bind, of_option. rewrite Hjson. unfold ret, getitem_mac, of_option.
  rewrite Hkey. reflexivity.
Qed.

Lemma stream_missing_key_witness :
  main_stream demo_cfg (const_server csv_one) (fun _ => Some (JObj [("MAC", JStr "aa:bb:cc:dd:ee:ff")]))
    "x" w0 = (w0, inl KeyError).
Proof.
  apply (stream_missing_key demo_cfg (const_server csv_one) _ "x" "x" [] []
           [("MAC", JStr "aa:bb:cc:dd:ee:ff")] w0); try reflexivity.
  - constructor.
  - discriminate.
Defined.

(** Lines that are JSON but neither an object nor an array (a bare JSON
    string, number, true, false or null) are skipped: when every
    non-empty line is such, [main] sends nothing, prints nothing and
    ends normally. *)
Theorem stream_skips_scalar_json (cfg : config) (server : request -> option string)
  (json_loads : string -> option json) (stdin : string) (w : world)
  (Hscalar : forall l, In l (py_split "010"%char stdin) -> l <> EmptyString ->
             exists j, json_loads l = Some j
                       /\ match j with JObj _ | JArr _ => False | _ => True end) :
  main_stream cfg server json_loads stdin w = (w, inr tt).
Proof.
  unfold main_stream, try_except.
  assert (H : for_each (py_split "010"%char stdin) (json_line cfg server json_loads) w = (w, inr tt)).
  { revert Hscalar. generalize (py_split "010"%char stdin) as ls.
    intros ls; revert w; induction ls as [|l ls IH]; intros w Hs; [reflexivity|].
    cbn [for_each]. unfold bind at 1.
    destruct (String.eqb_spec l EmptyString) as [->|Hne].
    - rewrite json_line_blank. apply IH. intros l' Hin; apply Hs; right; exact Hin.
    - destruct (Hs l (or_introl eq_refl) Hne) as [j [Hj Hk]].
      rewrite (json_line_nonempty cfg server json_loads l Hne).
      unfold bind at 1, of_option. rewrite Hj.
      destruct j; try contradiction; unfold ret at 1;
        apply IH; intros l' Hin; apply Hs; right; exact Hin. }
  rewrite H. reflexivity.
Qed.

Lemma stream_skips_scalar_json_witness :
  main_stream demo_cfg (const_server csv_one) (fun _ => Some (JStr "aa:bb:cc:dd:ee:ff"))
    "x
y" w0 = (w0, inr tt).
Proof.
  apply stream_skips_scalar_json. intros l _ _. exists (JStr "aa:bb:cc:dd:ee:ff").
  split; [reflexivity|exact I].
Defined.

(** When the JSON pass stops at a line that is not JSON, the fallback
    re-reads the input from its first line; if that line is no MAC (for
    instance a JSON line already answered), [main] ends with
    [AssertionError] after what the JSON pass printed. *)
Theorem stream_mixed_input_raises (cfg : config) (server : request -> option string)
  (json_loads : string -> option json) (stdin line : string) (pre post : list string)
  (w w1 : world)
  (Hsplit : py_split "010"%char stdin = (pre ++ line :: post)%list)
  (Hpre : Forall (fun l => l = EmptyString) pre) (Hne : line <> EmptyString)
  (Hpass : for_each (py_split "010"%char stdin) (json_line cfg server json_loads) w
           = (w1, inl JSONDecodeError))
  (Hbad : format_mac line = None) :
  main_stream cfg server json_loads stdin w = (w1, inl AssertionError).
Proof.
  unfold main_stream, try_except. rewrite Hpass. cbn beta iota.
  rewrite Hsplit, for_each_app, (for_each_blank _ pre w1 (bare_line_blank cfg server) Hpre).
  cbn [for_each]. unfold bind at 1.
  assert (Hl : bare_line cfg server line w1 = (w1, inl AssertionError)).
  { unfold bare_line. destruct (String.eqb_spec line EmptyString); [contradiction|].
    unfold bind. now rewrite (mac2switchport_bad cfg server line false w1 Hbad). }
  rewrite Hl. reflexivity.
Qed.

Lemma stream_mixed_input_raises_witness :
  main_stream demo_cfg (const_server csv_one) json_loads_demo mixed_input w0
  = (fst (for_each (py_split "010"%char mixed_input) (json_line demo_cfg (const_server csv_one) json_loads_demo) w0),
     inl AssertionError)
  /\ printed (fst (main_stream demo_cfg (const_server csv_one) json_loads_demo mixed_input w0))
     = [PyList [PyDict rec_sw1; PyDict rec_sw1]].
Proof.
  assert (H : main_stream demo_cfg (const_server csv_one) json_loads_demo mixed_input w0
    = (fst (for_each (py_split "010"%char mixed_input) (json_line demo_cfg (const_server csv_one) json_loads_demo) w0),
       inl AssertionError)).
  { apply (stream_mixed_input_raises demo_cfg (const_server csv_one) json_loads_demo
             mixed_input batch_line [] ["aa:bb:cc:dd:ee:ff"]).
    - vm_compute; reflexivity.
    - constructor.
    - vm_compute; discriminate.
    - vm_compute; reflexivity.
    - vm_compute; reflexivity. }
  split; [exact H|]. rewrite H. vm_compute. reflexivity.
Defined.

Lemma for_each_cons {A} (x : A) xs f w :
  for_each (x :: xs) f w
  = match f x w with
    | (w', inl e) => (w', inl e)
    | (w', inr _) => for_each xs f w'
    end.
Proof. reflexivity. Qed.

Lemma take_room_cons {A} (room : option nat) (x : A) xs :
  room <> Some 0 ->
  take_room room (x :: xs)
  = x :: take_room (match room with Some (S n) => Some n | r => r end) xs.
Proof. destruct room as [[|n]|]; simpl; congruence. Qed.

Lemma bare_pass cfg server ls w :
  (forall l, In l ls -> l <> EmptyString ->
             exists v, snd (mac2switchport cfg server l false w0) = inr v) ->
  printed (fst (for_each ls (bare_line cfg server) w))
  = (printed w ++ take_room (pipe_room w) (resolved_values cfg server (nonempty ls)))%list
  /\ (snd (for_each ls (bare_line cfg server) w) = inr tt
      \/ snd (for_each ls (bare_line cfg server) w) = inl BrokenPipeError).
Proof.
  revert w; induction ls as [|l ls IH]; intros w Hres.
  - cbn. destruct (pipe_room w) as [[|]|]; cbn; rewrite app_nil_r; auto.
  - assert (IH' : forall w, printed (fst (for_each ls (bare_line cfg server) w))
      = (printed w ++ take_room (pipe_room w) (resolved_values cfg server (nonempty ls)))%list
      /\ (snd (for_each ls (bare_line cfg server) w) = inr tt
          \/ snd (for_each ls (bare_line cfg server) w) = inl BrokenPipeError)).
    { intros w'; apply IH. intros l' Hin; apply Hres; right; exact Hin. }
    rewrite for_each_cons.
    destruct (String.eqb_spec l EmptyString) as [->|Hne].
    + rewrite bare_line_blank. apply IH'.
    + destruct (Hres l (or_introl eq_refl) Hne) as [v Hv].
      assert (Hnon : nonempty (l :: ls) = l :: nonempty ls).
      { unfold nonempty; cbn [filter]. destruct (String.eqb_spec l EmptyString); [contradiction|].
        reflexivity. }
      assert (Hvals : resolved_values cfg server (l :: nonempty ls)
                      = v :: resolved_values cfg server (nonempty ls)).
      { unfold resolved_values; cbn [flat_map]. rewrite Hv. reflexivity. }
      rewrite Hnon, Hvals.
      destruct (mac2switchport_frame cfg server l false w) as [Hp [Hr Hs]].
      set (w1 := fst (mac2switchport cfg server l false w)) in *.
      assert (Hb : bare_line cfg server l w = print_flush v w1).
      { unfold bare_line. destruct (String.eqb_spec l EmptyString); [contradiction|].
        unfold bind. rewrite (run_split (mac2switchport cfg server l false) w), Hs, Hv.
        reflexivity. }
      rewrite Hb. unfold print_flush. rewrite Hr.
      destruct (pipe_room w) as [[|k]|] eqn:Eroom; cbn.
      * rewrite Hp, app_nil_r. auto.
      * destruct (IH' {| requests := requests w1; printed := (printed w1 ++ [v])%list;
                         pipe_room := Some k |}) as [IHp IHr].
        cbn in IHp. rewrite IHp, <- app_assoc. split; [rewrite Hp; reflexivity|exact IHr].
      * destruct (IH' {| requests := requests w1; printed := (printed w1 ++ [v])%list;
                         pipe_room := None |}) as [IHp IHr].
        cbn in IHp. rewrite IHp, <- app_assoc. split; [rewrite Hp; reflexivity|exact IHr].
Qed.

(** When the first non-empty line is not JSON and every non-empty line
    resolves, [main] prints the value of each non-empty line in order,
    as many as the standard output takes before its consumer closes it,
    and ends normally either way. *)
Theorem stream_bare_lines_output (cfg : config) (server : request -> option string)
  (json_loads : string -> option json) (stdin line : string) (pre post : list string)
  (w : world)
  (Hsplit : py_split "010"%char stdin = (pre ++ line :: post)%list)
  (Hpre : Forall (fun l => l = EmptyString) pre) (Hne : line <> EmptyString)
  (Hnotjson : json_loads line = None)
  (Hres : forall l, In l (py_split "010"%char stdin) -> l <> EmptyString ->
          exists v, snd (mac2switchport cfg server l false w0) = inr v) :
  snd (main_stream cfg server json_loads stdin w) = inr tt
  /\ printed (fst (main_stream cfg server json_loads stdin w))
     = (printed w ++ take_room (pipe_room w)
                      (resolved_values cfg server (nonempty (py_split "010"%char stdin))))%list.
Proof.
  unfold main_stream, try_except.
  assert (Hpass : for_each (py_split "010"%char stdin) (json_line cfg server json_loads) w
                  = (w, inl JSONDecodeError)).
  { rewrite Hsplit, (json_pass_first cfg server json_loads pre line post w Hpre Hne),
            (json_line_nonempty cfg server json_loads line Hne).
    unfold bind, of_option. rewrite Hnotjson. reflexivity. }
  rewrite Hpass. cbn beta iota.
  destruct (bare_pass cfg server (py_split "010"%char stdin) w Hres) as [Hp [Hr|Hr]];
    rewrite (run_split (for_each _ (bare_line cfg server)) w), Hr; cbn; auto.
Qed.

Lemma stream_bare_lines_output_witness :
  printed (fst (main_stream demo_cfg (const_server csv_one) json_loads_demo
                  "aa:bb:cc:dd:ee:ff

1122.3344.5566
" (w_room 1)))
  = [PyDict rec_sw1].
Proof.
  exact (proj2 (stream_bare_lines_output demo_cfg (const_server csv_one) json_loads_demo
    "aa:bb:cc:dd:ee:ff

1122.3344.5566
" "aa:bb:cc:dd:ee:ff" [] ["";"1122.3344.5566";""] (w_room 1)
    eq_refl (Forall_nil _) ltac:(discriminate) eq_refl
    ltac:(intros l Hin Hne; simpl in Hin;
          repeat destruct Hin as [<-|Hin]; try contradiction; eexists; reflexivity))).
Defined.

Lemma collect_resolve {A} cfg server (xs : list A) (f : A -> M pyval) (macs : list string) w :
  Forall2 (fun x m => forall w, f x w = mac2switchport cfg server m false w) xs macs ->
  (forall m, In m macs -> exists v, snd (mac2switchport cfg server m false w0) = inr v) ->
  snd (collect xs f w) = inr (resolved_values cfg server macs)
  /\ printed (fst (collect xs f w)) = printed w
  /\ pipe_room (fst (collect xs f w)) = pipe_room w.
Proof.
  intros H2; revert w; induction H2 as [|x m xs macs Hxm H2 IH]; intros w Hres;
    [cbn; auto|].
  destruct (Hres m (or_introl eq_refl)) as [v Hv].
  destruct (mac2switchport_frame cfg server m false w) as [Hp [Hr Hs]].
  destruct (IH (fst (mac2switchport cfg server m false w))) as [IHs [IHp IHr]];
    [intros m' Hin; apply Hres; right; exact Hin|].
  set (w1 := fst (mac2switchport cfg server m false w)) in *.
  assert (E : collect (x :: xs) f w = (fst (collect xs f w1), inr (v :: resolved_values cfg server macs))).
  { cbn [collect]. unfold bind. rewrite Hxm, (run_split (mac2switchport cfg server m false) w), Hs, Hv.
    fold w1. rewrite (run_split (collect xs f) w1), IHs. reflexivity. }
  rewrite E. cbn [fst snd].
  unfold resolved_values at 2; cbn [flat_map]. rewrite Hv.
  split; [reflexivity|]. rewrite IHp, IHr. auto.
Qed.

(** After the JSON pass has handled its only non-empty line. *)
Lemma main_stream_single_json cfg server json_loads stdin line pre post w :
  py_split "010"%char stdin = (pre ++ line :: post)%list ->
  Forall (fun l => l = EmptyString) pre -> Forall (fun l => l = EmptyString) post ->
  line <> EmptyString ->
  snd (json_line cfg server json_loads line w) = inr tt ->
  main_stream cfg server json_loads stdin w = (fst (json_line cfg server json_loads line w), inr tt).
Proof.
  intros Hsplit Hpre Hpost Hne Hok.
  unfold main_stream, try_except. rewrite Hsplit, (json_pass_first cfg server json_loads pre line post w Hpre Hne).
  rewrite (run_split (json_line cfg server json_loads line) w), Hok.
  rewrite (for_each_blank _ post _ (json_line_blank cfg server json_loads) Hpost). reflexivity.
Qed.

(** A JSON object line whose "mac" is an array of strings is answered
    by one printed array: the resolution of each MAC, in order. *)
Theorem stream_object_batch (cfg : config) (server : request -> option string)
  (json_loads : string -> option json) (stdin line : string) (pre post : list string)
  (kvs : list (string * json)) (macs : list string) (w : world)
  (Hsplit : py_split "010"%char stdin = (pre ++ line :: post)%list)
  (Hpre : Forall (fun l => l = EmptyString) pre)
  (Hpost : Forall (fun l => l = EmptyString) post) (Hne : line <> EmptyString)
  (Hjson : json_loads line = Some (JObj kvs))
  (Hmacs : dict_get kvs "mac" = Some (JArr (map JStr macs)))
  (Hres : forall m, In m macs -> exists v, snd (mac2switchport cfg server m false w0) = inr v)
  (Hopen : pipe_room w = None) :
  snd (main_stream cfg server json_loads stdin w) = inr tt
  /\ printed (fst (main_stream cfg server json_loads stdin w))
     = (printed w ++ [PyList (resolved_values cfg server macs)])%list.
Proof.
  assert (H2 : Forall2 (fun x m => forall w, mac2switchport_json cfg server x false w
                                             = mac2switchport cfg server m false w)
                       (map JStr macs) macs).
  { clear Hres Hmacs. induction macs as [|m macs IH]; constructor; [intros; reflexivity|exact IH]. }
  destruct (collect_resolve cfg server (map JStr macs) (fun m => mac2switchport_json cfg server m false)
              macs w H2 Hres) as [Hs [Hp Hr]].
  assert (Hline : json_line cfg server json_loads line w
    = ({| requests := requests (fst (collect (map JStr macs) (fun m => mac2switchport_json cfg server m false) w));
          printed := (printed w ++ [PyList (resolved_values cfg server macs)])%list;
          pipe_room := None |}, inr tt)).
  { rewrite (json_line_nonempty cfg server json_loads line Hne).
    unfold bind at 1, of_option. rewrite Hjson. unfold ret at 1.
    unfold bind at 1, getitem_mac, of_option. rewrite Hmacs. unfold ret at 1.
    unfold bind at 1, py_iter, ret at 1.
    unfold bind. rewrite (run_split (collect _ _) w), Hs.
    unfold print_flush. rewrite Hr, Hopen, Hp. reflexivity. }
  rewrite (main_stream_single_json cfg server json_loads stdin line pre post w Hsplit Hpre Hpost Hne);
    rewrite Hline; [split; reflexivity|reflexivity].
Qed.

Lemma stream_object_batch_witness :
  printed (fst (main_stream demo_cfg (const_server csv_one) json_loads_demo batch_line w0))
  = [PyList (resolved_values demo_cfg (const_server csv_one) ["aa:bb:cc:dd:ee:ff"; "1122.3344.5566"])].
Proof.
  refine (proj2 (stream_object_batch demo_cfg (const_server csv_one) json_loads_demo batch_line
    batch_line [] [] _ ["aa:bb:cc:dd:ee:ff"; "1122.3344.5566"] w0
    eq_refl (Forall_nil _) (Forall_nil _) ltac:(discriminate) eq_refl eq_refl _ eq_refl)).
  intros m Hin; simpl in Hin; repeat destruct Hin as [<-|Hin]; try contradiction;
    eexists; reflexivity.
Defined.

(** A JSON array line of objects whose "mac" is a string is answered
    by one printed array: the resolution of each element's MAC, in order. *)
Theorem stream_array_batch (cfg : config) (server : request -> option string)
  (json_loads : string -> option json) (stdin line : string) (pre post : list string)
  (eles : list json) (macs : list string) (w : world)
  (Hsplit : py_split "010"%char stdin = (pre ++ line :: post)%list)
  (Hpre : Forall (fun l => l = EmptyString) pre)
  (Hpost : Forall (fun l => l = EmptyString) post) (Hne : line <> EmptyString)
  (Hjson : json_loads line = Some (JArr eles))
  (Hmacs : map element_mac eles = map Some macs)
  (Hres : forall m, In m macs -> exists v, snd (mac2switchport cfg server m false w0) = inr v)
  (Hopen : pipe_room w = None) :
  snd (main_stream cfg server json_loads stdin w) = inr tt
  /\ printed (fst (main_stream cfg server json_loads stdin w))
     = (printed w ++ [PyList (resolved_values cfg server macs)])%list.
Proof.
  set (f := fun ele => m <- getitem_mac ele ;; mac2switchport_json cfg server m false).
  assert (H2 : Forall2 (fun x m => forall w, f x w = mac2switchport cfg server m false w) eles macs).
  { clear Hres Hjson. revert macs Hmacs; induction eles as [|e eles IH]; intros [|m macs] Hm;
      try discriminate; constructor.
    - injection Hm as He _. intros w'. unfold f, bind.
      destruct e; try discriminate. cbn in He. unfold getitem_mac, of_option.
      destruct (dict_get kvs "mac") as [[]|]; try discriminate. injection He as ->. reflexivity.
    - apply IH. injection Hm as _ Hm'. exact Hm'. }
  destruct (collect_resolve cfg server eles f macs w H2 Hres) as [Hs [Hp Hr]].
  assert (Hline : json_line cfg server json_loads line w
    = ({| requests := requests (fst (collect eles f w));
          printed := (printed w ++ [PyList (resolved_values cfg server macs)])%list;
          pipe_room := None |}, inr tt)).
  { rewrite (json_line_nonempty cfg server json_loads line Hne).
    unfold bind at 1, of_option. rewrite Hjson. unfold ret at 1.
    fold f. unfold bind. rewrite (run_split (collect eles f) w), Hs.
    unfold print_flush. rewrite Hr, Hopen, Hp. reflexivity. }
  rewrite (main_stream_single_json cfg server json_loads stdin line pre post w Hsplit Hpre Hpost Hne);
    rewrite Hline; [split; reflexivity|reflexivity].
Qed.

Lemma stream_array_batch_witness :
  printed (fst (main_stream demo_cfg url_server
                  (fun _ => Some (JArr [JObj [("mac", JStr "aa:bb:cc:dd:ee:ff")];
                                        JObj [("mac", JStr "1122.3344.5566")]])) "x" w0))
  = [PyList (resolved_values demo_cfg url_server ["aa:bb:cc:dd:ee:ff"; "1122.3344.5566"])]
  /\ resolved_values demo_cfg url_server ["aa:bb:cc:dd:ee:ff"; "1122.3344.5566"]
     = [PyDict rec_sw1; PyList [PyDict rec_sw1; PyDict rec_sw2]].
Proof.
  split; [|vm_compute; reflexivity].
  refine (proj2 (stream_array_batch demo_cfg url_server _ "x" "x" [] []
    [JObj [("mac", JStr "aa:bb:cc:dd:ee:ff")]; JObj [("mac", JStr "1122.3344.5566")]]
    ["aa:bb:cc:dd:ee:ff"; "1122.3344.5566"] w0
    eq_refl (Forall_nil _) (Forall_nil _) ltac:(discriminate) eq_refl eq_refl _ eq_refl)).
  intros m Hin; simpl in Hin; repeat destruct Hin as [<-|Hin]; try contradiction;
    eexists; vm_compute; reflexivity.
Defined.
